(** * Delivery behaviours of gopher_behaviours (delivery.py)

    A shallow embedding of [gopher_behaviours/delivery.py]: the [State]
    enumeration, the [Waiting] gate and the [GopherDeliveries] goal state
    machine ([set_goal], [pre_tick_update], [post_tock_update]), followed by
    the properties of the delivery specification that concern them.

    Python objects are records, attributes that may be missing are options,
    exceptions are a [result] type, and calls to collaborators (planner, ROS
    logging, notification publisher) are recorded as a list of events. *)

From stdpp Require Import base option list strings gmap sorting.
From Stdlib Require OrdersEx.

Set Default Proof Using "Type".

(** ** Enumerations *)

(** [py_trees.Status], the status a behaviour reports after a tick. *)
Module Status.
Inductive t := SUCCESS | FAILURE | RUNNING | INVALID.

#[global] Instance eq_dec : EqDecision t.
Proof. solve_decision. Defined.

(** The two statuses a oneshot sequence retains. *)
Definition final (s : t) : bool :=
  match s with SUCCESS | FAILURE => true | _ => false end.
End Status.

(** [class State(IntEnum)]: the codes of gopher_std_msgs/DeliveryFeedback. *)
Module State.
Inductive t := IDLE | WAITING | TRAVELLING | INVALID.

#[global] Instance eq_dec : EqDecision t.
Proof. solve_decision. Defined.

Definition value (s : t) : Z :=
  match s with IDLE => 0 | WAITING => 1 | TRAVELLING => 2 | INVALID => 3 end.
End State.

(** The members of [gopher_std_msgs.DeliveryErrorCodes] that [set_goal]
    returns.  [FUBAR] is the code sent with "Received invalid locations";
    the specification calls it INVALID_LOCATIONS. *)
Module DeliveryErrorCodes.
Inductive t := SUCCESS | GOAL_EMPTY_NOTHING_TO_DO | ALREADY_ASSIGNED_A_GOAL | FUBAR.

#[global] Instance eq_dec : EqDecision t.
Proof. solve_decision. Defined.
End DeliveryErrorCodes.

(** ** Exceptions and effects *)

Inductive exception :=
| AttributeError (attr : string)
| IndexError.

Inductive result (A : Type) :=
| Ok (a : A)
| Raise (e : exception).
Arguments Ok {A} a.
Arguments Raise {A} e.

#[global] Instance result_bind : MBind result :=
  λ A B (k : A → result B) (r : result A),
    match r with Ok a => k a | Raise e => Raise e end.

Definition is_ok {A} (r : result A) : bool :=
  match r with Ok _ => true | Raise _ => false end.

(** Reading an attribute that may not have been assigned yet. *)
Definition getattr {A} (attr : string) (o : option A) : result A :=
  match o with Some a => Ok a | None => Raise (AttributeError attr) end.

(** Fields of [gopher_std_msgs.Notification] as this file fills them. *)
Inductive NotificationField := RETAIN_PREVIOUS | BUTTON_ON | BUTTON_OFF.

Record Notification := {
  led_pattern : NotificationField;
  button_confirm : NotificationField;
  button_cancel : NotificationField;
  message : string
}.

Definition Doors := list string.

(** What a call lets the outside world see. *)
Inductive Event :=
| CreateTree (current_world : string) (locations : list string)
             (include_parking_behaviours : bool) (doors : Doors)
| LogWarn (msg : string)
| SetCurrentLocation (location : option string)
| Publish (n : Notification).

(** ** The blackboard

    [Blackboard()] is a Borg: every instance shares one attribute dictionary.
    [GopherDeliveries.__init__] assigns only [is_waiting]; the two location
    lists exist once [pre_tick_update] has assembled a tree. *)
Record Blackboard := {
  is_waiting : option bool;
  traversed_locations : option (list string);
  remaining_locations : option (list string)
}.

Definition set_traversed_locations (v : list string) (bb : Blackboard) : Blackboard :=
  {| is_waiting := is_waiting bb;
     traversed_locations := Some v;
     remaining_locations := remaining_locations bb |}.

Definition set_remaining_locations (v : list string) (bb : Blackboard) : Blackboard :=
  {| is_waiting := is_waiting bb;
     traversed_locations := traversed_locations bb;
     remaining_locations := Some v |}.

(** ["%s" % a_list] for a list of plain location names: ['a', 'b']. *)
Fixpoint py_join (sep : string) (l : list string) : string :=
  match l with
  | [] => ""
  | [x] => x
  | x :: l' => x +:+ sep +:+ py_join sep l'
  end.

Definition py_quote (s : string) : string := "'" +:+ s +:+ "'".

Definition py_str_list (l : list string) : string :=
  "[" +:+ py_join ", " (py_quote <$> l) +:+ "]".

(** ** Behaviours

    The attributes every [py_trees.Behaviour] carries. *)
Module Node.
Record t := {
  id : nat;
  name : string;
  status : Status.t
}.

Definition set_status (s : Status.t) (n : t) : t :=
  {| id := id n; name := name n; status := s |}.

(** A behaviour is created with status INVALID. *)
Definition new (uuid : nat) (nm : string) : t :=
  {| id := uuid; name := nm; status := Status.INVALID |}.
End Node.

(** *** [class Waiting(py_trees.Behaviour)] *)
Module Waiting.
Record t := {
  behaviour : Node.t;
  location : string;
  dont_wait_for_hoomans : bool;
  go_requested : bool;
  feedback_message : string
}.

Definition status (w : t) : Status.t := Node.status (behaviour w).

Definition __init__ (uuid : nat) (name location : string)
    (dont_wait_for_hoomans_flag : bool) : t :=
  {| behaviour := Node.new uuid name;
     location := location;
     dont_wait_for_hoomans := dont_wait_for_hoomans_flag;
     go_requested := false;
     feedback_message :=
       "hanging around at '" +:+ location +:+ "' waiting for lazy bastards" |}.

Definition set_go_requested (b : bool) (w : t) : t :=
  {| behaviour := behaviour w; location := location w;
     dont_wait_for_hoomans := dont_wait_for_hoomans w;
     go_requested := b; feedback_message := feedback_message w |}.

Definition set_feedback_message (m : string) (w : t) : t :=
  {| behaviour := behaviour w; location := location w;
     dont_wait_for_hoomans := dont_wait_for_hoomans w;
     go_requested := go_requested w; feedback_message := m |}.

(** The engine stores what [update] returned in [self.status]. *)
Definition with_status (s : Status.t) (w : t) : t :=
  {| behaviour := Node.set_status s (behaviour w); location := location w;
     dont_wait_for_hoomans := dont_wait_for_hoomans w;
     go_requested := go_requested w; feedback_message := feedback_message w |}.

Definition waiting_notification : Notification :=
  {| led_pattern := RETAIN_PREVIOUS; button_confirm := BUTTON_ON;
     button_cancel := RETAIN_PREVIOUS;
     message := "at location, waiting for button press" |}.

Definition pressed_notification : Notification :=
  {| led_pattern := RETAIN_PREVIOUS; button_confirm := BUTTON_OFF;
     button_cancel := RETAIN_PREVIOUS;
     message := "go button was pressed" |}.

(** [update]: the status it returns, the gate with its new feedback
    message, and what it published before any exception. *)
Definition update (w : t) (bb : Blackboard)
    : list Event * result (t * Status.t) :=
  let status :=
    if dont_wait_for_hoomans w then Status.SUCCESS else Status.RUNNING in
  let '(status, published) :=
    if bool_decide (status = Status.RUNNING) && go_requested w
    then (Status.SUCCESS, [])
    else (status, [Publish waiting_notification]) in
  (published,
   remaining ← getattr "remaining_locations" (remaining_locations bb);
   Ok (set_feedback_message ("remaining: " +:+ py_str_list remaining) w,
       status)).

Definition _go_button_callback (w : t) : list Event * t :=
  ([Publish pressed_notification],
   set_go_requested
     (if bool_decide (status w = Status.RUNNING) then true else false) w).

(** What can happen to a gate, in the order it happens: the go button
    subscriber fires, the tree engine writes a status into the behaviour
    (the result of a tick, or an invalidation), or [update] is called. *)
Inductive Action :=
| GoSignal
| EngineWritesStatus (s : Status.t)
| CallUpdate (bb : Blackboard).

Definition act (w : t) (a : Action) : t :=
  match a with
  | GoSignal => (_go_button_callback w).2
  | EngineWritesStatus s => with_status s w
  | CallUpdate bb =>
      match (update w bb).2 with
      | Ok (w', _) => w'
      | Raise _ => w
      end
  end.

Definition run (w : t) (actions : list Action) : t := foldl act w actions.

(** Was the gate RUNNING when the latest go signal of [actions] arrived?
    [false] when there was none. *)
Fixpoint latest_go_while_running (w : t) (actions : list Action)
    (acc : bool) : bool :=
  match actions with
  | [] => acc
  | a :: rest =>
      latest_go_while_running (act w a) rest
        match a with
        | GoSignal => bool_decide (status w = Status.RUNNING)
        | _ => acc
        end
  end.
End Waiting.

(** *** Behaviour trees

    The leaves this file tells apart ([isinstance] in [post_tock_update]) or
    creates itself, and the three composites it instantiates.  [Step] is any
    other leaf the planner may hand over. *)
Inductive LeafKind :=
| MoveToGoal
| CheckButtonPressed (topic : string) (latched : bool)
| HomebaseRecovery
| Step.

Inductive CompositeKind := Sequence | OneshotSequence | Selector.

#[local] Set Warnings "-register-all".
Inductive Behaviour :=
| Gate (w : Waiting.t)
| Leaf (n : Node.t) (k : LeafKind)
| Composite (n : Node.t) (k : CompositeKind) (current_index : option nat)
            (children : list Behaviour).

Definition node (b : Behaviour) : Node.t :=
  match b with
  | Gate w => Waiting.behaviour w
  | Leaf n _ => n
  | Composite n _ _ _ => n
  end.

Definition children (b : Behaviour) : list Behaviour :=
  match b with
  | Composite _ _ _ cs => cs
  | _ => []
  end.

(** [Sequence.current_child()]: the child at the current index, [None]
    before the first tick. *)
Definition current_child (b : Behaviour) : option Behaviour :=
  match b with
  | Composite _ _ (Some i) cs => cs !! i
  | _ => None
  end.

(** ** Collaborators *)

(** The identifiers [gopher_configuration.Configuration()] supplies. *)
Record Configuration := {
  buttons_go : string;
  buttons_stop : string;
  topics_display_notification : string
}.

(** The planner [GopherDeliveries] is constructed with.  [create_tree]
    receives the planner's own [current_location] as its first argument and
    returns [None] or a list of behaviours. *)
Record Planner := {
  check_locations : list string → bool;
  create_tree : option string → string → list string → bool → Doors →
                option (list Behaviour);
  current_location : option string
}.

Definition set_current_location (l : option string) (p : Planner) : Planner :=
  {| check_locations := check_locations p;
     create_tree := create_tree p;
     current_location := l |}.

(** The part of [gopher_std_msgs.Location] that [__init__] reads. *)
Record Location := {
  unique_name : string;
  name : string;
  description : string
}.

(** [self.locations] holds a list of its own after [__init__]; once a tree
    has been assembled it is the very list object that is also
    [blackboard.remaining_locations], so whatever is done to that list in
    place is seen through [self.locations] too. *)
Inductive LocationsRef :=
| OwnList (l : list string)
| RemainingLocations.

(** ** [class GopherDeliveries] *)
Module GopherDeliveries.
(** [doors] is [None] until [set_goal] first assigns the attribute.
    [uuid] is the supply the identifiers of new behaviours are drawn from.
    [cancel_sequence], [delivery_sequence] and [delivery_selector] are the
    very objects inside [root] and are read only while [root] is not
    [None]: they are the accessors below, not copies. *)
Record t := {
  blackboard : Blackboard;
  config : Configuration;
  root : option Behaviour;
  state : State.t;
  locations : LocationsRef;
  has_a_new_goal : bool;
  feedback_message : string;
  old_goal_id : option nat;
  planner : Planner;
  always_assume_initialised : bool;
  doors : option Doors;
  incoming_goal : option (list string);
  uuid : nat
}.

Definition cancel_sequence (g : t) : option Behaviour :=
  r ← root g; children r !! 0.

Definition delivery_selector (g : t) : option Behaviour :=
  r ← root g; children r !! 1.

Definition delivery_sequence (g : t) : option Behaviour :=
  s ← delivery_selector g; children s !! 0.

(** [__init__]; [bb] is the attribute dictionary all blackboards share
    and [uuid0] the identifier supply at the time of the call. *)
Definition __init__ (bb : Blackboard) (cfg : Configuration) (uuid0 : nat)
    (name : string) (planner : Planner)
    (semantic_locations : option (list Location)) : t :=
  {| blackboard :=
       {| is_waiting := Some false;
          traversed_locations := traversed_locations bb;
          remaining_locations := remaining_locations bb |};
     config := cfg;
     root := None;
     state := State.IDLE;
     locations := OwnList [];
     has_a_new_goal := false;
     feedback_message := "";
     old_goal_id := None;
     planner := planner;
     always_assume_initialised := false;
     doors := None;
     incoming_goal :=
       match semantic_locations with
       | Some ls => Some (unique_name <$> ls)
       | None => None
       end;
     uuid := uuid0 |}.

(** The three assignments of an accepted goal. *)
Definition assign_goal (locations : list string)
    (always_assume_initialised' : bool) (doors' : Doors) (g : t) : t :=
  {| blackboard := blackboard g; config := config g; root := root g;
     state := state g; locations := GopherDeliveries.locations g;
     has_a_new_goal := has_a_new_goal g;
     feedback_message := feedback_message g;
     old_goal_id := old_goal_id g; planner := planner g;
     always_assume_initialised := always_assume_initialised';
     doors := Some doors';
     incoming_goal := Some locations;
     uuid := uuid g |}.

Definition set_goal (g : t) (locations : option (list string))
    (always_assume_initialised : bool) (doors : Doors)
    : t * (DeliveryErrorCodes.t * string) :=
  match locations with
  | None | Some [] =>
      (g, (DeliveryErrorCodes.GOAL_EMPTY_NOTHING_TO_DO,
           "goal empty, nothing to do."))
  | Some locations =>
      match state g with
      | State.IDLE =>
          if check_locations (planner g) locations
          then (assign_goal locations always_assume_initialised doors g,
                (DeliveryErrorCodes.SUCCESS, "assigned new goal"))
          else (g, (DeliveryErrorCodes.FUBAR, "Received invalid locations"))
      | State.WAITING =>
          (assign_goal locations always_assume_initialised doors g,
           (DeliveryErrorCodes.SUCCESS, "pre-empting current goal"))
      | _ =>
          (g, (DeliveryErrorCodes.ALREADY_ASSIGNED_A_GOAL,
               "sorry, busy (already assigned a goal)"))
      end
  end.

(** The tree [pre_tick_update] builds around the planner's [children];
    the seven new behaviours draw their identifiers from [u] in the order
    they are constructed. *)
Definition new_cancel_sequence (cfg : Configuration) (u : nat) : Behaviour :=
  Composite (Node.new (u + 2) "Cancellation") Sequence None
    [ Leaf (Node.new u "Cancel Pressed?")
           (CheckButtonPressed (buttons_stop cfg) true);
      Leaf (Node.new (u + 1) "Delivery Cancelled") HomebaseRecovery ].

Definition new_delivery_sequence (u : nat) (children : list Behaviour)
    : Behaviour :=
  Composite (Node.new (u + 3) "Balli Balli Deliveries") OneshotSequence None
    children.

Definition new_delivery_selector (u : nat) (children : list Behaviour)
    : Behaviour :=
  Composite (Node.new (u + 5) "Deliver or recover") Selector None
    [ new_delivery_sequence u children;
      Leaf (Node.new (u + 4) "Delivery Failed") HomebaseRecovery ].

Definition new_root (cfg : Configuration) (u : nat)
    (children : list Behaviour) : Behaviour :=
  Composite (Node.new (u + 6) "Deliver Unto Me") Selector None
    [ new_cancel_sequence cfg u; new_delivery_selector u children ].

(** [False if self.always_assume_initialised or self.root else True];
    a behaviour object is true, [None] is false. *)
Definition include_parking_behaviours (g : t) : bool :=
  if always_assume_initialised g || bool_decide (is_Some (root g))
  then false else true.

Definition no_locations_warning : string :=
  "Gopher Deliveries : Received a goal, but none of the locations were valid.".

Definition pre_tick_update (g : t) (current_world : string)
    : list Event * result t :=
  match incoming_goal g with
  | Some ((_ :: _) as goal) =>
      let include := include_parking_behaviours g in
      match doors g with
      | None => ([], Raise (AttributeError "doors"))
      | Some doors_ =>
          let call := CreateTree current_world goal include doors_ in
          match create_tree (planner g) (current_location (planner g))
                  current_world goal include doors_ with
          | None | Some [] =>
              ([call; LogWarn no_locations_warning],
               Ok {| blackboard := blackboard g; config := config g;
                     root := root g; state := state g;
                     locations := locations g;
                     has_a_new_goal := has_a_new_goal g;
                     feedback_message := feedback_message g;
                     old_goal_id := old_goal_id g; planner := planner g;
                     always_assume_initialised := always_assume_initialised g;
                     doors := doors g;
                     incoming_goal := None;
                     uuid := uuid g |})
          | Some children =>
              ([call],
               traversed ←
                 match root g with
                 | None => Ok []
                 | Some _ =>
                     getattr "traversed_locations"
                       (traversed_locations (blackboard g))
                 end;
               Ok {| blackboard :=
                       set_remaining_locations goal
                         (set_traversed_locations traversed (blackboard g));
                     config := config g;
                     root := Some (new_root (config g) (uuid g) children);
                     state := state g;
                     locations := RemainingLocations;
                     has_a_new_goal := true;
                     feedback_message := feedback_message g;
                     old_goal_id := (λ r, Node.id (node r)) <$> root g;
                     planner := planner g;
                     always_assume_initialised := always_assume_initialised g;
                     doors := doors g;
                     incoming_goal := None;
                     uuid := uuid g + 7 |})
          end
      end
  | _ =>
      let unchanged :=
        {| blackboard := blackboard g; config := config g; root := root g;
           state := state g; locations := locations g;
           has_a_new_goal := false;
           feedback_message := feedback_message g;
           old_goal_id := old_goal_id g; planner := planner g;
           always_assume_initialised := always_assume_initialised g;
           doors := doors g; incoming_goal := incoming_goal g;
           uuid := uuid g |} in
      match root g with
      | Some r =>
          if bool_decide (Node.status (node r) = Status.SUCCESS) then
            match getattr "traversed_locations"
                    (traversed_locations (blackboard g)) with
            | Raise e => ([], Raise e)
            | Ok traversed =>
                let here := last traversed in
                ([SetCurrentLocation here],
                 Ok {| blackboard := blackboard g; config := config g;
                       root := None;
                       state := state g; locations := locations g;
                       has_a_new_goal := true;
                       feedback_message := feedback_message g;
                       old_goal_id := Some (Node.id (node r));
                       planner := set_current_location here (planner g);
                       always_assume_initialised := always_assume_initialised g;
                       doors := doors g; incoming_goal := incoming_goal g;
                       uuid := uuid g |})
            end
          else ([], Ok unchanged)
      | None => ([], Ok unchanged)
      end
  end.

Definition is_executing (g : t) : bool :=
  bool_decide (state g = State.WAITING)
  || bool_decide (state g = State.TRAVELLING).

Definition succeeded_on_last_tick (g : t) : bool :=
  match root g with
  | Some r => bool_decide (Node.status (node r) = Status.SUCCESS)
  | None => false
  end.

(** The two assignments every branch of [post_tock_update] ends with. *)
Definition report (s : State.t) (message : string) (g : t) : t :=
  {| blackboard := blackboard g; config := config g; root := root g;
     state := s; locations := locations g;
     has_a_new_goal := has_a_new_goal g;
     feedback_message := message;
     old_goal_id := old_goal_id g; planner := planner g;
     always_assume_initialised := always_assume_initialised g;
     doors := doors g; incoming_goal := incoming_goal g;
     uuid := uuid g |}.

Definition recovery_message : string :=
  "delivery failed, waiting for human to teleop us back home before cancelling".

Definition post_tock_update (g : t) : result t :=
  match root g with
  | Some r =>
      if bool_decide (Node.status (node r) = Status.RUNNING) then
        ds ← getattr "status" (delivery_sequence g);
        if bool_decide (Node.status (node ds) = Status.RUNNING) then
          match current_child ds with
          | Some (Leaf _ MoveToGoal) =>
              traversed ← getattr "traversed_locations"
                            (traversed_locations (blackboard g));
              remaining ← getattr "remaining_locations"
                            (remaining_locations (blackboard g));
              match last traversed, head remaining with
              | Some from, Some to =>
                  Ok (report State.TRAVELLING
                        ("moving from '" +:+ from +:+ "' to '" +:+ to +:+ "'") g)
              | None, Some to =>
                  Ok (report State.TRAVELLING ("moving to '" +:+ to +:+ "'") g)
              | _, None => Raise IndexError
              end
          | Some (Gate w) =>
              Ok (report State.WAITING (Waiting.feedback_message w) g)
          | _ => Ok g
          end
        else Ok (report State.WAITING recovery_message g)
      else Ok (report State.IDLE "idling" g)
  | None => Ok (report State.IDLE "idling" g)
  end.
End GopherDeliveries.

(** ** The tree engine and the travel leaf

    [py_trees] and [moveit.MoveToGoal] are used by delivery.py but are not
    part of it; the definitions of this section follow the specification. *)

(** Modelled from the spec: the bookkeeping of the travel leaf
    [moveit.MoveToGoal], which is not in delivery.py.  "Remaining shrinks and
    traversed grows by exactly one element per completed leg, preserving
    original order": the head of [remaining_locations] moves to the end of
    [traversed_locations].  With nothing remaining there is no leg to
    record. *)
Definition complete_leg (bb : Blackboard) : result Blackboard :=
  traversed ← getattr "traversed_locations" (traversed_locations bb);
  remaining ← getattr "remaining_locations" (remaining_locations bb);
  match remaining with
  | [] => Ok bb
  | here :: rest =>
      Ok (set_remaining_locations rest
            (set_traversed_locations (traversed ++ [here]) bb))
  end.

(** [k] legs in a row. *)
Fixpoint complete_legs (k : nat) (bb : Blackboard) : result Blackboard :=
  match k with
  | 0 => Ok bb
  | S k' => bb' ← complete_leg bb; complete_legs k' bb'
  end.

(** Modelled from the spec: the behaviours that are not in delivery.py
    (travel, button check, recovery, other planner steps) are external
    collaborators; all that is known of them is the status each reports in a
    cycle, given here by the leaf's position in the tree (the path of child
    indices from the root). *)
Definition Env := list nat → Status.t.

(** The positions of the leaves whose [update] ran during one tick. *)
Definition Trace := list (list nat).

Section composites.
Context (tick_child : list nat → Blackboard → Behaviour →
                      result (Blackboard * Behaviour * Trace)).

(** Modelled from the spec: the sequence of [py_trees], which is not in
    delivery.py.  It ticks its children in order from [start] and stops at
    the first one that does not succeed; it reports that child's status and
    index, or SUCCESS after the last child. *)
Fixpoint tick_sequence (path : list nat) (i start : nat) (bb : Blackboard)
    (cs : list Behaviour)
    : result (Blackboard * list Behaviour * Trace * Status.t * option nat) :=
  match cs with
  | [] => Ok (bb, [], [], Status.SUCCESS, None)
  | c :: rest =>
      if bool_decide (i < start) then
        '(bb', rest', tr, s, j) ← tick_sequence path (S i) start bb rest;
        Ok (bb', c :: rest', tr, s, Some (default i j))
      else
        '(bb1, c', tr1) ← tick_child (path ++ [i]) bb c;
        if bool_decide (Node.status (node c') = Status.SUCCESS) then
          '(bb2, rest', tr2, s, j) ← tick_sequence path (S i) start bb1 rest;
          Ok (bb2, c' :: rest', tr1 ++ tr2, s, Some (default i j))
        else Ok (bb1, c' :: rest, tr1, Node.status (node c'), Some i)
  end.

(** Modelled from the spec: the priority selector of [py_trees], which is
    not in delivery.py ("the surrounding selector tries it first; only on its
    failure does recovery run").  It tries its children in order and stops at
    the first one that is running or has succeeded; it fails when all have
    failed. *)
Fixpoint tick_selector (path : list nat) (i : nat) (bb : Blackboard)
    (cs : list Behaviour)
    : result (Blackboard * list Behaviour * Trace * Status.t) :=
  match cs with
  | [] => Ok (bb, [], [], Status.FAILURE)
  | c :: rest =>
      '(bb1, c', tr1) ← tick_child (path ++ [i]) bb c;
      let s1 := Node.status (node c') in
      if bool_decide (s1 = Status.RUNNING) || bool_decide (s1 = Status.SUCCESS)
      then Ok (bb1, c' :: rest, tr1, s1)
      else
        '(bb2, rest', tr2, s) ← tick_selector path (S i) bb1 rest;
        Ok (bb2, c' :: rest', tr1 ++ tr2, s)
  end.
End composites.

(** Modelled from the spec: one tick of a behaviour by the [py_trees] engine,
    which is not in delivery.py.  The oneshot sequence is the specification's:
    "once this sequence reaches a final (success/failure) status, it never
    re-evaluates its children on subsequent cycles -- it returns the retained
    status".  Selectors and sequences are the priority selector and the
    sequence of section 4.2; a [Waiting] gate runs its [update] from
    delivery.py; a travel leaf that succeeds records its leg. *)
Fixpoint tick (env : Env) (path : list nat) (bb : Blackboard) (b : Behaviour)
    {struct b} : result (Blackboard * Behaviour * Trace) :=
  match b with
  | Gate w =>
      '(w', s) ← (Waiting.update w bb).2;
      Ok (bb, Gate (Waiting.with_status s w'), [path])
  | Leaf n k =>
      let s := env path in
      bb' ← match k with
            | MoveToGoal =>
                if bool_decide (s = Status.SUCCESS) then complete_leg bb
                else Ok bb
            | _ => Ok bb
            end;
      Ok (bb', Leaf (Node.set_status s n) k, [path])
  | Composite n k cur cs =>
      let as_sequence :=
        let start :=
          if bool_decide (Node.status n = Status.RUNNING)
          then default 0 cur else 0 in
        '(bb', cs', tr, s, j) ← tick_sequence (tick env) path 0 start bb cs;
        Ok (bb', Composite (Node.set_status s n) k j cs', tr) in
      match k with
      | Selector =>
          '(bb', cs', tr, s) ← tick_selector (tick env) path 0 bb cs;
          Ok (bb', Composite (Node.set_status s n) Selector cur cs', tr)
      | Sequence => as_sequence
      | OneshotSequence =>
          if Status.final (Node.status n) then Ok (bb, b, [])
          else as_sequence
      end
  end.

(** The delivery system after a tick: the tick works on the blackboard and
    on the tree, and on nothing else. *)
Definition with_tree (bb : Blackboard) (r : option Behaviour)
    (g : GopherDeliveries.t) : GopherDeliveries.t :=
  {| GopherDeliveries.blackboard := bb;
     GopherDeliveries.config := GopherDeliveries.config g;
     GopherDeliveries.root := r;
     GopherDeliveries.state := GopherDeliveries.state g;
     GopherDeliveries.locations := GopherDeliveries.locations g;
     GopherDeliveries.has_a_new_goal := GopherDeliveries.has_a_new_goal g;
     GopherDeliveries.feedback_message := GopherDeliveries.feedback_message g;
     GopherDeliveries.old_goal_id := GopherDeliveries.old_goal_id g;
     GopherDeliveries.planner := GopherDeliveries.planner g;
     GopherDeliveries.always_assume_initialised :=
       GopherDeliveries.always_assume_initialised g;
     GopherDeliveries.doors := GopherDeliveries.doors g;
     GopherDeliveries.incoming_goal := GopherDeliveries.incoming_goal g;
     GopherDeliveries.uuid := GopherDeliveries.uuid g |}.

(** Modelled from the spec: the tick of the root by the surrounding loop,
    which is not in delivery.py; without a root there is nothing to tick. *)
Definition tick_root (env : Env) (g : GopherDeliveries.t)
    : result (GopherDeliveries.t * Trace) :=
  match GopherDeliveries.root g with
  | None => Ok (g, [])
  | Some r =>
      '(bb, r', tr) ← tick env [] (GopherDeliveries.blackboard g) r;
      Ok (with_tree bb (Some r') g, tr)
  end.

(** Modelled from the spec: one control cycle of the surrounding loop,
    which is not in delivery.py: "advance_cycle runs immediately before the
    tick, classify_after_tick immediately after". *)
Definition cycle (current_world : string) (env : Env) (g : GopherDeliveries.t)
    : result (GopherDeliveries.t * Trace) :=
  g1 ← (GopherDeliveries.pre_tick_update g current_world).2;
  '(g2, tr) ← tick_root env g1;
  g3 ← GopherDeliveries.post_tock_update g2;
  Ok (g3, tr).

(** Cycle after cycle with no call of [set_goal] in between; the traces of
    the ticks are collected in order. *)
Fixpoint cycles (current_world : string) (envs : list Env)
    (g : GopherDeliveries.t) : result (GopherDeliveries.t * list Trace) :=
  match envs with
  | [] => Ok (g, [])
  | env :: rest =>
      '(g', tr) ← cycle current_world env g;
      '(g'', trs) ← cycles current_world rest g';
      Ok (g'', tr :: trs)
  end.

(** ** The specification's wording

    Where a sentence of the specification words a computation differently
    from the code, its wording is written down here, to be compared with the
    definition taken from the source. *)

Definition no_root (g : GopherDeliveries.t) : bool :=
  if GopherDeliveries.root g is None then true else false.

(** "included only if no root currently exists or the robot is not assumed
    initialized", read as the value of the flag. *)
Definition parking_flag_as_specified (g : GopherDeliveries.t) : bool :=
  no_root g || negb (GopherDeliveries.always_assume_initialised g).

(** Is there a goal [pre_tick_update] would pick up? *)
Definition pending (g : GopherDeliveries.t) : option (list string) :=
  match GopherDeliveries.incoming_goal g with
  | Some ((_ :: _) as goal) => Some goal
  | _ => None
  end.

Definition is_create_tree (e : Event) : bool :=
  if e is CreateTree _ _ _ _ then true else false.

(** A decomposition [pre_tick_update] treats as a planning failure. *)
Definition empty_decomposition (children : option (list Behaviour)) : bool :=
  match children with
  | None | Some [] => true
  | Some (_ :: _) => false
  end.

(** ** Bookkeeping invariants *)

(** The blackboard of a goal under way: with [before] the locations already
    traversed when the goal's tree was assembled, some [k] legs of [goal] are
    done; they are in [traversed_locations], in order, and the others are in
    [remaining_locations], in order. *)
Definition on_route (before goal : list string) (bb : Blackboard) : Prop :=
  ∃ k, traversed_locations bb = Some (before ++ take k goal)
       ∧ remaining_locations bb = Some (drop k goal).

(** Some leaf below position [prefix] ran its [update] during the tick. *)
Definition ran_under (prefix : list nat) (tr : Trace) : Prop :=
  ∃ p, p ∈ tr ∧ prefix `prefix_of` p.

(** The position of the delivery sequence in the root, and the root with the
    delivery sequence [ds] in that position. *)
Definition delivery_position : list nat := [1; 0].

Definition root_around (ds r : Behaviour) : Prop :=
  ∃ n cur cancel n' cur' recovery,
    r = Composite n Selector cur
          [cancel; Composite n' Selector cur' [ds; recovery]].

(** The oneshot delivery sequence of a root that has the shape
    [pre_tick_update] gives it: a selector over a cancellation branch and a
    selector over the oneshot sequence and a recovery behaviour. *)
Definition delivery_branch (r : Behaviour) : option Behaviour :=
  match r with
  | Composite _ Selector _
      [_; Composite _ Selector _ [Composite nd OneshotSequence cd cs; _]] =>
      Some (Composite nd OneshotSequence cd cs)
  | _ => None
  end.

(** What holds from cycle to cycle once the delivery sequence [ds] is
    final, as long as no goal is submitted: no goal is pending, the location
    lists exist, and the root, if there still is one, carries [ds]. *)
Definition retained (ds : Behaviour) (g : GopherDeliveries.t) : Prop :=
  pending g = None
  ∧ (∃ before goal, on_route before goal (GopherDeliveries.blackboard g))
  ∧ (GopherDeliveries.root g = None
     ∨ ∃ r, GopherDeliveries.root g = Some r ∧ root_around ds r).

(** What a tick of a behaviour at [path] guarantees on a blackboard that is
    on route: it returns, the blackboard is still on route, and only leaves
    below [path] ran. *)
Definition tick_ok (f : list nat → Blackboard → Behaviour →
                        result (Blackboard * Behaviour * Trace))
    (before goal : list string) (b : Behaviour) : Prop :=
  ∀ path bb, on_route before goal bb →
    ∃ bb' b' tr,
      f path bb b = Ok (bb', b', tr)
      ∧ on_route before goal bb'
      ∧ is_waiting bb' = is_waiting bb
      ∧ Forall (λ p, path `prefix_of` p) tr.

(** ** A small hospital

    A concrete configuration and planner on which the functions above are
    evaluated: three known locations; a goal is decomposed into a travel leaf
    and a [Waiting] gate per location, after an unparking step when parking
    behaviours are asked for; a goal with an unknown location has no
    decomposition. *)
Module Hospital.
Definition cfg : Configuration :=
  {| buttons_go := "/gopher/buttons/go";
     buttons_stop := "/gopher/buttons/stop";
     topics_display_notification := "/gopher/display_notification" |}.

Definition catalog : list string := ["pharmacy"; "ward_a"; "ward_b"].

Definition known (locations : list string) : bool :=
  forallb (λ l, bool_decide (l ∈ catalog)) locations.

Fixpoint steps (u : nat) (locations : list string) : list Behaviour :=
  match locations with
  | [] => []
  | l :: rest =>
      Leaf (Node.new u ("to " +:+ l)) MoveToGoal
      :: Gate (Waiting.__init__ (u + 1) ("at " +:+ l) l false)
      :: steps (u + 2) rest
  end.

Definition planner : Planner :=
  {| check_locations := known;
     create_tree := λ _ _ locations parking _,
       if known locations
       then Some ((if parking then [Leaf (Node.new 100 "unpark") Step] else [])
                  ++ steps 101 locations)
       else None;
     current_location := None |}.

Definition empty_blackboard : Blackboard :=
  {| is_waiting := None; traversed_locations := None;
     remaining_locations := None |}.

(** A fresh delivery system, without and with a preload. *)
Definition fresh : GopherDeliveries.t :=
  GopherDeliveries.__init__ empty_blackboard cfg 0 "deliveries" planner None.

Definition preloaded : GopherDeliveries.t :=
  GopherDeliveries.__init__ empty_blackboard cfg 0 "deliveries" planner
    (Some [ {| unique_name := "pharmacy"; name := "Pharmacy";
               description := "the pharmacy" |} ]).

(** Every external leaf succeeds / keeps running. *)
Definition all_succeed : Env := λ _, Status.SUCCESS.
Definition cancel_not_pressed : Env :=
  λ path, match path with
          | [0; 0] => Status.FAILURE
          | _ => Status.SUCCESS
          end.
Definition on_the_way : Env :=
  λ path, match path with
          | [0; 0] => Status.FAILURE
          | _ => Status.RUNNING
          end.
Definition travel_fails : Env :=
  λ path, match path with
          | [0; 0] => Status.FAILURE
          | [1; 1] => Status.RUNNING
          | _ => Status.FAILURE
          end.

(** The state a run ended in ([fresh] if it raised). *)
Definition reached {T} (r : result (GopherDeliveries.t * T))
    : GopherDeliveries.t :=
  match r with Ok (g, _) => g | Raise _ => fresh end.

(** Goal A, accepted while IDLE. *)
Definition goal_a : list string := ["pharmacy"; "ward_a"].

Definition accepted : GopherDeliveries.t :=
  (GopherDeliveries.set_goal fresh (Some goal_a) true []).1.

(** One cycle later the robot is on its way to the pharmacy ... *)
Definition travelling : GopherDeliveries.t :=
  reached (cycles "hospital" [on_the_way] accepted).

(** ... and one more cycle later it waits there for the go button. *)
Definition waiting_at_pharmacy : GopherDeliveries.t :=
  reached (cycles "hospital" [on_the_way; cancel_not_pressed] accepted).

(** Had the first leg failed, the robot would be recovering. *)
Definition recovering : GopherDeliveries.t :=
  reached (cycles "hospital" [travel_fails] accepted).

(** The root and the delivery sequence of the recovering robot. *)
Definition failed_root : Behaviour :=
  default (Leaf (Node.new 0 "") Step) (GopherDeliveries.root recovering).

Definition failed_sequence : Behaviour :=
  default (Leaf (Node.new 0 "") Step) (delivery_branch failed_root).

(** Goal B, submitted at the pharmacy gate: a known ward, or a place the
    planner has never heard of. *)
Definition preempted_by (goal_b : list string) : GopherDeliveries.t :=
  (GopherDeliveries.set_goal waiting_at_pharmacy (Some goal_b) false []).1.

Definition next_cycle (g : GopherDeliveries.t) : GopherDeliveries.t :=
  match (GopherDeliveries.pre_tick_update g "hospital").2 with
  | Ok g' => g'
  | Raise _ => fresh
  end.
End Hospital.

(** ** A clinic next door

    The hospital's catalog and steps, with a planner that has a map of the
    world "clinic" only: it knows the same locations, and asked for a route
    in another world it has no decomposition, for known locations either. *)
Module Clinic.
Definition planner : Planner :=
  {| check_locations := Hospital.known;
     create_tree := λ _ world locations parking _,
       if bool_decide (world = "clinic") && Hospital.known locations
       then Some ((if parking then [Leaf (Node.new 100 "unpark") Step] else [])
                  ++ Hospital.steps 101 locations)
       else None;
     current_location := None |}.

Definition fresh : GopherDeliveries.t :=
  GopherDeliveries.__init__ Hospital.empty_blackboard Hospital.cfg 0
    "deliveries" planner None.

(** Goal A, accepted while IDLE ... *)
Definition accepted : GopherDeliveries.t :=
  (GopherDeliveries.set_goal fresh (Some Hospital.goal_a) true []).1.

(** ... and two cycles later the robot waits at the pharmacy gate. *)
Definition waiting_at_pharmacy : GopherDeliveries.t :=
  Hospital.reached
    (cycles "clinic" [Hospital.on_the_way; Hospital.cancel_not_pressed]
       accepted).
End Clinic.

(** ** Histories of calls

    What can be done to a delivery system, in any order: the three methods
    of delivery.py that change it, and the tick of the tree in between.  The
    tick is not in delivery.py; all that is assumed of it is that it leaves
    some blackboard and some tree behind. *)
Inductive Call :=
| SetGoal (locations : option (list string))
          (always_assume_initialised : bool) (doors : Doors)
| PreTickUpdate (current_world : string)
| Ticked (bb : Blackboard) (r : option Behaviour)
| PostTockUpdate.

Definition call (g : GopherDeliveries.t) (c : Call)
    : result GopherDeliveries.t :=
  match c with
  | SetGoal locations aai d =>
      Ok (GopherDeliveries.set_goal g locations aai d).1
  | PreTickUpdate current_world =>
      (GopherDeliveries.pre_tick_update g current_world).2
  | Ticked bb r => Ok (with_tree bb r g)
  | PostTockUpdate => GopherDeliveries.post_tock_update g
  end.

(** The calls in order, up to the first that raises. *)
Fixpoint calls (g : GopherDeliveries.t) (cs : list Call)
    : result GopherDeliveries.t :=
  match cs with
  | [] => Ok g
  | c :: rest => g' ← call g c; calls g' rest
  end.

Definition is_set_current_location (e : Event) : bool :=
  if e is SetCurrentLocation _ then true else false.

Definition is_go_signal (a : Waiting.Action) : bool :=
  if a is Waiting.GoSignal then true else false.

(** What [post_tock_update] decides from the tree and the blackboard: the
    state and feedback message to report, or [None] when it leaves both as
    they are.  ([post_tock_update_classification] below shows that this is
    what the method does.) *)
Definition classification (g : GopherDeliveries.t)
    : result (option (State.t * string)) :=
  match GopherDeliveries.root g with
  | Some r =>
      if bool_decide (Node.status (node r) = Status.RUNNING) then
        ds ← getattr "status" (GopherDeliveries.delivery_sequence g);
        if bool_decide (Node.status (node ds) = Status.RUNNING) then
          match current_child ds with
          | Some (Leaf _ MoveToGoal) =>
              traversed ← getattr "traversed_locations"
                            (traversed_locations
                               (GopherDeliveries.blackboard g));
              remaining ← getattr "remaining_locations"
                            (remaining_locations
                               (GopherDeliveries.blackboard g));
              match last traversed, head remaining with
              | Some from, Some to =>
                  Ok (Some (State.TRAVELLING,
                            "moving from '" +:+ from +:+ "' to '"
                            +:+ to +:+ "'"))
              | None, Some to =>
                  Ok (Some (State.TRAVELLING, "moving to '" +:+ to +:+ "'"))
              | _, None => Raise IndexError
              end
          | Some (Gate w) =>
              Ok (Some (State.WAITING, Waiting.feedback_message w))
          | _ => Ok None
          end
        else Ok (Some (State.WAITING, GopherDeliveries.recovery_message))
      else Ok (Some (State.IDLE, "idling"))
  | None => Ok (Some (State.IDLE, "idling"))
  end.

Definition classified (c : option (State.t * string))
    (g : GopherDeliveries.t) : GopherDeliveries.t :=
  match c with
  | Some (s, m) => GopherDeliveries.report s m g
  | None => g
  end.

(** ** [desirable_destinations]

    The function reads a YAML file of the gopher_semantics package and
    turns its [semantic_locations] dictionary into a list of Location
    messages.  The model covers the documents the function is written for:
    the file was found and parsed, [yaml.load] returned a dictionary, the
    value at ['semantic_locations'], if the key is there, is a dictionary
    with strings as keys and dictionaries as values, and the value at
    ['pose'] of an entry, if the key is there, is a dictionary.  On such a
    document every key the function subscripts may still be absent: a key
    that may be absent is an option, and subscripting an absent key raises
    KeyError.  What happens before and outside of that is not modelled and
    nothing is proved about it: a package or file that is not found
    (rospkg.ResourceNotFound, IOError), a file that is not YAML, an empty
    document or one that is not a dictionary (TypeError on the subscript),
    a [semantic_locations] that is not a dictionary (AttributeError on
    [items]), an entry or a pose that is not a dictionary (TypeError on the
    subscript).  The numbers of a pose are copied, never computed with, so
    their type is left open. *)

Module Destinations.
Inductive subscripted (A : Type) :=
| Found (a : A)
| KeyError (key : string).
Arguments Found {A} a.
Arguments KeyError {A} key.

#[global] Instance subscripted_bind : MBind subscripted :=
  λ A B (k : A → subscripted B) (r : subscripted A),
    match r with Found a => k a | KeyError key => KeyError key end.

(** [d[key]] *)
Definition subscript {A} (key : string) (o : option A) : subscripted A :=
  match o with Some a => Found a | None => KeyError key end.

Section desirable_destinations.
Context {Number : Type}.

Record PoseEntry := {
  pose_x : option Number;
  pose_y : option Number;
  pose_theta : option Number
}.

(** The value of one key of [semantic_locations]. *)
Record Entry := {
  entry_name : option string;
  entry_description : option string;
  entry_pose : option PoseEntry;
  entry_keyframe_id : option Number
}.

(** [geometry_msgs.msg.Pose2D] *)
Record Pose2D := {
  x : Number;
  y : Number;
  theta : Number
}.

(** A [gopher_std_msgs.Location] in full: the fields of [Location] and the
    two that only [desirable_destinations] fills. *)
Record SemanticLocation := {
  location : Location;
  pose : Pose2D;
  keyframe_id : Number
}.

(** The order of Python on strings: by character code, a proper prefix
    first. *)
Definition key_le (a b : string) : Prop :=
  OrdersEx.String_as_OT.compare a b ≠ Gt.

Definition key_lt (a b : string) : Prop :=
  OrdersEx.String_as_OT.compare a b = Lt.

#[global] Instance key_le_dec : RelDecision key_le.
Proof. intros a b. unfold key_le. apply _. Defined.

(** [sorted(d.items())]: the items by ascending key. *)
Definition sorted_items (d : gmap string Entry) : list (string * Entry) :=
  merge_sort (λ i j, key_le i.1 j.1) (map_to_list d).

(** The body of the loop. *)
Definition make_location (key : string) (value : Entry)
    : subscripted SemanticLocation :=
  name_ ← subscript "name" (entry_name value);
  description_ ← subscript "description" (entry_description value);
  pose_ ← subscript "pose" (entry_pose value);
  x_ ← subscript "x" (pose_x pose_);
  pose_' ← subscript "pose" (entry_pose value);
  y_ ← subscript "y" (pose_y pose_');
  pose_'' ← subscript "pose" (entry_pose value);
  theta_ ← subscript "theta" (pose_theta pose_'');
  keyframe_id_ ← subscript "keyframe_id" (entry_keyframe_id value);
  Found {| location := {| unique_name := key; name := name_;
                          description := description_ |};
           pose := {| x := x_; y := y_; theta := theta_ |};
           keyframe_id := keyframe_id_ |}.

Fixpoint make_locations (items : list (string * Entry))
    : subscripted (list SemanticLocation) :=
  match items with
  | [] => Found []
  | (key, value) :: rest =>
      l ← make_location key value;
      ls ← make_locations rest;
      Found (l :: ls)
  end.


(** [semantic_locations] is the value of the document [yaml.load] returned
    at the key ['semantic_locations'], [None] if the document has no such
    key. *)
Definition desirable_destinations
    (semantic_locations : option (gmap string Entry))
    : subscripted (list SemanticLocation) :=
  loaded_locations ← subscript "semantic_locations" semantic_locations;
  make_locations (sorted_items loaded_locations).
End desirable_destinations.
Arguments PoseEntry : clear implicits.
Arguments Entry : clear implicits.
Arguments Pose2D : clear implicits.
Arguments SemanticLocation : clear implicits.

Definition unique_names {Number} (ls : list (SemanticLocation Number))
    : list string :=
  (λ l, unique_name (location l)) <$> ls.

(** A document with three locations, entered out of order, and the same
    document with the theta of one pose missing. *)
Definition entry (name_ description_ : string) (theta_ : option Z)
    : Entry Z :=
  {| entry_name := Some name_;
     entry_description := Some description_;
     entry_pose := Some {| pose_x := Some 1%Z; pose_y := Some 2%Z;
                           pose_theta := theta_ |};
     entry_keyframe_id := Some 7%Z |}.

Definition sample : gmap string (Entry Z) :=
  list_to_map
    [ ("ward_b", entry "Ward B" "second floor" (Some 0%Z));
      ("pharmacy", entry "Pharmacy" "ground floor" (Some 0%Z));
      ("ward_a", entry "Ward A" "first floor" (Some 0%Z)) ].

End Destinations.

(** * Properties *)

(** ** The [Waiting] gate *)

Section waiting_gate.
Implicit Types (w : Waiting.t) (bb : Blackboard).

Lemma callback_latch w :
  Waiting.go_requested (Waiting._go_button_callback w).2
  = bool_decide (Waiting.status w = Status.RUNNING).
Proof. cbn. by case_bool_decide. Qed.

Lemma callback_keeps_flag w :
  Waiting.dont_wait_for_hoomans (Waiting._go_button_callback w).2
  = Waiting.dont_wait_for_hoomans w.
Proof. reflexivity. Qed.

(** [update] never touches the latch, the engine's status write neither. *)
Lemma update_keeps_latch w bb w' s :
  (Waiting.update w bb).2 = Ok (w', s) →
  Waiting.go_requested w' = Waiting.go_requested w.
Proof.
  unfold Waiting.update.
  destruct (bool_decide _ && _); cbn;
    destruct (remaining_locations bb); cbn; intros [= <- _]; done.
Qed.

(** The status [update] returns, as a function of flag and latch. *)
Lemma update_status w bb remaining :
  remaining_locations bb = Some remaining →
  (Waiting.update w bb).2
  = Ok (Waiting.set_feedback_message
          ("remaining: " +:+ py_str_list remaining) w,
        if Waiting.dont_wait_for_hoomans w || Waiting.go_requested w
        then Status.SUCCESS else Status.RUNNING).
Proof.
  intros Hr. unfold Waiting.update.
  destruct (Waiting.dont_wait_for_hoomans w), (Waiting.go_requested w);
    cbn; rewrite Hr; reflexivity.
Qed.

Lemma act_latch w a :
  Waiting.go_requested (Waiting.act w a)
  = match a with
    | Waiting.GoSignal => bool_decide (Waiting.status w = Status.RUNNING)
    | _ => Waiting.go_requested w
    end.
Proof.
  destruct a as [|s|bb]; cbn -[Waiting.update]; [by case_bool_decide|done|].
  destruct (Waiting.update w bb).2 as [[w' s]|e] eqn:Hu; [|done].
  by apply update_keeps_latch in Hu.
Qed.

Lemma run_latch actions : ∀ w,
  Waiting.go_requested (Waiting.run w actions)
  = Waiting.latest_go_while_running w actions (Waiting.go_requested w).
Proof.
  induction actions as [|a actions IH]; intros w; [done|].
  cbn [Waiting.run foldl Waiting.latest_go_while_running].
  change (foldl Waiting.act (Waiting.act w a) actions)
    with (Waiting.run (Waiting.act w a) actions).
  rewrite IH, act_latch. by destruct a.
Qed.
End waiting_gate.

(** C8.  A go signal delivered while gate [w] is not RUNNING leaves its latch
    [go_requested] false, so whatever status the engine writes afterwards,
    the next [update] of a gate that waits for humans still returns RUNNING
    (and a gate that does not wait succeeds by its flag, as it would have
    without the signal).  After any callback the latch is true exactly when
    the gate was RUNNING at that moment, and along any history of a new gate
    the latch is true exactly when the latest go signal came while it was
    RUNNING. *)
Theorem C8_go_signal_only_counts_while_running
    (w : Waiting.t) (bb : Blackboard) (remaining : list string)
    (Hinactive : Waiting.status w ≠ Status.RUNNING)
    (Hbb : remaining_locations bb = Some remaining) :
  let w' := (Waiting._go_button_callback w).2 in
  Waiting.go_requested w' = false
  ∧ (∀ s, ∃ w'',
       (Waiting.update (Waiting.with_status s w') bb).2
       = Ok (w'', if Waiting.dont_wait_for_hoomans w
                  then Status.SUCCESS else Status.RUNNING)
       ∧ Waiting.go_requested w'' = false)
  ∧ (∀ v : Waiting.t,
       Waiting.go_requested (Waiting._go_button_callback v).2 = true
       ↔ Waiting.status v = Status.RUNNING)
  ∧ (∀ uuid name location flag actions,
       Waiting.go_requested
         (Waiting.run (Waiting.__init__ uuid name location flag) actions)
       = Waiting.latest_go_while_running
           (Waiting.__init__ uuid name location flag) actions false).
Proof.
  intros w'. assert (Hlatch : Waiting.go_requested w' = false).
  { unfold w'. rewrite callback_latch. by apply bool_decide_eq_false. }
  repeat split.
  - exact Hlatch.
  - intros s. rewrite (update_status _ _ _ Hbb). eexists. split.
    + cbn. destruct (Waiting.dont_wait_for_hoomans w); cbn; [done|].
      case_bool_decide; [done|reflexivity].
    + cbn. by case_bool_decide.
  - rewrite callback_latch. apply bool_decide_eq_true.
  - rewrite callback_latch. apply bool_decide_eq_true.
  - intros. apply run_latch.
Qed.

(** An instance of C8: the gate at the pharmacy, pressed before its first
    tick, keeps waiting when it becomes active. *)
Lemma C8_witness :
  let w := Waiting.__init__ 102 "at pharmacy" "pharmacy" false in
  let bb := GopherDeliveries.blackboard Hospital.waiting_at_pharmacy in
  Waiting.status w ≠ Status.RUNNING
  ∧ remaining_locations bb = Some ["ward_a"]
  ∧ Waiting.go_requested (Waiting._go_button_callback w).2 = false
  ∧ ∃ w'',
      (Waiting.update
         (Waiting.with_status Status.RUNNING (Waiting._go_button_callback w).2)
         bb).2
      = Ok (w'', Status.RUNNING).
Proof.
  intros w bb.
  assert (Hinactive : Waiting.status w ≠ Status.RUNNING) by (cbn; congruence).
  assert (Hbb : remaining_locations bb = Some ["ward_a"]) by reflexivity.
  destruct (C8_go_signal_only_counts_while_running w bb _ Hinactive Hbb)
    as (Hlatch & Hnext & _).
  destruct (Hnext Status.RUNNING) as (w'' & Hupd & _).
  split; [exact Hinactive|]. split; [exact Hbb|]. split; [exact Hlatch|].
  exists w''. exact Hupd.
Defined.

(** ** Goal acceptance: [set_goal] *)

Section set_goal.
Import GopherDeliveries.
Implicit Types (g : GopherDeliveries.t) (locations : list string).

(** An empty goal is refused in every state. *)
Lemma set_goal_empty g aai d :
  set_goal g (Some []) aai d
  = (g, (DeliveryErrorCodes.GOAL_EMPTY_NOTHING_TO_DO,
         "goal empty, nothing to do.")).
Proof. reflexivity. Qed.

(** While IDLE the planner's catalog decides. *)
Lemma set_goal_idle g locations aai d :
  state g = State.IDLE → locations ≠ [] →
  set_goal g (Some locations) aai d
  = if check_locations (planner g) locations
    then (assign_goal locations aai d g,
          (DeliveryErrorCodes.SUCCESS, "assigned new goal"))
    else (g, (DeliveryErrorCodes.FUBAR, "Received invalid locations")).
Proof.
  intros Hs Hne. destruct locations as [|l ls]; [done|].
  cbn. rewrite Hs. reflexivity.
Qed.

(** While WAITING the catalog is not consulted. *)
Lemma set_goal_waiting g locations aai d :
  state g = State.WAITING → locations ≠ [] →
  set_goal g (Some locations) aai d
  = (assign_goal locations aai d g,
     (DeliveryErrorCodes.SUCCESS, "pre-empting current goal")).
Proof.
  intros Hs Hne. destruct locations as [|l ls]; [done|].
  cbn. rewrite Hs. reflexivity.
Qed.

(** [doors] changes only when a goal is accepted. *)
Lemma set_goal_doors g (goal : option (list string)) aai d :
  doors (set_goal g goal aai d).1
  = if bool_decide ((set_goal g goal aai d).2.1
                    = DeliveryErrorCodes.SUCCESS)
    then Some d else doors g.
Proof.
  destruct goal as [[|l ls]|]; [done| |done].
  cbn. destruct (state g); [|done..].
  by destruct (check_locations _ _).
Qed.
End set_goal.

(** C1 (the code departs from the claim).  At the pharmacy, WAITING for the
    go button, a goal whose only location is unknown to the planner's catalog
    is not rejected: [set_goal] answers SUCCESS, "pre-empting current goal",
    and the pending-goal slot now holds the unknown location.  (While IDLE
    the same goal is refused with the invalid-locations code and the slot is
    left alone.) *)
Theorem C1_waiting_skips_location_check :
  GopherDeliveries.state Hospital.waiting_at_pharmacy = State.WAITING
  ∧ GopherDeliveries.incoming_goal Hospital.waiting_at_pharmacy = None
  ∧ check_locations
      (GopherDeliveries.planner Hospital.waiting_at_pharmacy) ["morgue"]
    = false
  ∧ (GopherDeliveries.set_goal
       Hospital.waiting_at_pharmacy (Some ["morgue"]) false []).2
    = (DeliveryErrorCodes.SUCCESS, "pre-empting current goal")
  ∧ GopherDeliveries.incoming_goal
      (GopherDeliveries.set_goal
         Hospital.waiting_at_pharmacy (Some ["morgue"]) false []).1
    = Some ["morgue"]
  ∧ GopherDeliveries.set_goal Hospital.fresh (Some ["morgue"]) false []
    = (Hospital.fresh,
       (DeliveryErrorCodes.FUBAR, "Received invalid locations")).
Proof. vm_compute. repeat split; reflexivity. Qed.

(** C9 as stated fails: while TRAVELLING, an empty goal is answered with
    GOAL_EMPTY_NOTHING_TO_DO, not with ALREADY_ASSIGNED_A_GOAL. *)
Lemma C9_counterexample :
  GopherDeliveries.state Hospital.travelling = State.TRAVELLING
  ∧ (GopherDeliveries.set_goal Hospital.travelling (Some []) false []).2.1
    = DeliveryErrorCodes.GOAL_EMPTY_NOTHING_TO_DO
  ∧ (GopherDeliveries.set_goal Hospital.travelling (Some []) false []).2.1
    ≠ DeliveryErrorCodes.ALREADY_ASSIGNED_A_GOAL.
Proof. split; [reflexivity|]. split; [reflexivity|]. cbn. congruence. Qed.

(** C9, amended.  While TRAVELLING, every [set_goal] call with a non-empty
    list of locations returns ALREADY_ASSIGNED_A_GOAL and leaves the whole
    object as it was: the same root, the same pending goal, the same state. *)
Theorem C9_travelling_rejects_goal
    (g : GopherDeliveries.t) (locations : list string) (aai : bool) (d : Doors)
    (Htravelling : GopherDeliveries.state g = State.TRAVELLING)
    (Hnonempty : locations ≠ []) :
  GopherDeliveries.set_goal g (Some locations) aai d
  = (g, (DeliveryErrorCodes.ALREADY_ASSIGNED_A_GOAL,
         "sorry, busy (already assigned a goal)")).
Proof.
  destruct locations as [|l ls]; [done|].
  cbn. rewrite Htravelling. reflexivity.
Qed.

(** An instance of C9: on the way to the pharmacy, goal [ward_b] is turned
    down. *)
Lemma C9_witness :
  GopherDeliveries.state Hospital.travelling = State.TRAVELLING
  ∧ ["ward_b"] ≠ ([] : list string)
  ∧ GopherDeliveries.set_goal Hospital.travelling (Some ["ward_b"]) true []
    = (Hospital.travelling,
       (DeliveryErrorCodes.ALREADY_ASSIGNED_A_GOAL,
        "sorry, busy (already assigned a goal)")).
Proof.
  assert (Hs : GopherDeliveries.state Hospital.travelling = State.TRAVELLING)
    by reflexivity.
  assert (Hne : ["ward_b"] ≠ ([] : list string)) by discriminate.
  split; [exact Hs|]. split; [exact Hne|].
  exact (C9_travelling_rejects_goal Hospital.travelling ["ward_b"] true []
           Hs Hne).
Defined.

(** ** Tree assembly: [pre_tick_update] *)

Section pre_tick_update.
Import GopherDeliveries.
Implicit Types (g : GopherDeliveries.t) (goal : list string).

Lemma pending_Some g goal :
  pending g = Some goal ↔ incoming_goal g = Some goal ∧ goal ≠ [].
Proof.
  unfold pending. destruct (incoming_goal g) as [[|l ls]|]; split;
    try (intros [= <-]; done); try (intros [[= <-] ?]; done);
    intros [[=] ?].
Qed.

Lemma include_parking_behaviours_spec g :
  include_parking_behaviours g
  = no_root g && negb (always_assume_initialised g).
Proof.
  unfold include_parking_behaviours, no_root.
  destruct (always_assume_initialised g), (root g); reflexivity.
Qed.

(** The first step with a pending goal: [doors] is read, then the planner
    is called. *)
Lemma pre_tick_update_pending g world goal :
  pending g = Some goal →
  pre_tick_update g world
  = match doors g with
    | None => ([], Raise (AttributeError "doors"))
    | Some d =>
        let include := include_parking_behaviours g in
        let call := CreateTree world goal include d in
        match create_tree (planner g) (current_location (planner g))
                world goal include d with
        | Some ((_ :: _) as children) =>
            ([call],
             traversed ←
               match root g with
               | None => Ok []
               | Some _ =>
                   getattr "traversed_locations"
                     (traversed_locations (blackboard g))
               end;
             Ok {| blackboard :=
                     set_remaining_locations goal
                       (set_traversed_locations traversed (blackboard g));
                   config := config g;
                   root := Some (new_root (config g) (uuid g) children);
                   state := state g;
                   locations := RemainingLocations;
                   has_a_new_goal := true;
                   feedback_message := feedback_message g;
                   old_goal_id := (λ r, Node.id (node r)) <$> root g;
                   planner := planner g;
                   always_assume_initialised := always_assume_initialised g;
                   doors := doors g;
                   incoming_goal := None;
                   uuid := uuid g + 7 |})
        | _ =>
            ([call; LogWarn no_locations_warning],
             Ok {| blackboard := blackboard g; config := config g;
                   root := root g; state := state g;
                   locations := locations g;
                   has_a_new_goal := has_a_new_goal g;
                   feedback_message := feedback_message g;
                   old_goal_id := old_goal_id g; planner := planner g;
                   always_assume_initialised := always_assume_initialised g;
                   doors := doors g;
                   incoming_goal := None;
                   uuid := uuid g |})
        end
    end.
Proof.
  intros [Hg Hne]%pending_Some. unfold pre_tick_update. rewrite Hg.
  destruct goal as [|l ls]; [done|].
  destruct (doors g) as [d|]; [|done]. cbn zeta.
  by destruct (create_tree _ _ _ _ _ _) as [[|c cs]|].
Qed.

(** Without a pending goal the planner is not asked and nothing raises as
    long as the traversed locations exist. *)
Lemma pre_tick_update_idle g world :
  pending g = None →
  pre_tick_update g world
  = match root g with
    | Some r =>
        if bool_decide (Node.status (node r) = Status.SUCCESS) then
          match getattr "traversed_locations"
                  (traversed_locations (blackboard g)) with
          | Raise e => ([], Raise e)
          | Ok traversed =>
              ([SetCurrentLocation (last traversed)],
               Ok {| blackboard := blackboard g; config := config g;
                     root := None;
                     state := state g; locations := locations g;
                     has_a_new_goal := true;
                     feedback_message := feedback_message g;
                     old_goal_id := Some (Node.id (node r));
                     planner :=
                       set_current_location (last traversed) (planner g);
                     always_assume_initialised := always_assume_initialised g;
                     doors := doors g; incoming_goal := incoming_goal g;
                     uuid := uuid g |})
          end
        else
          ([], Ok {| blackboard := blackboard g; config := config g;
                     root := root g;
                     state := state g; locations := locations g;
                     has_a_new_goal := false;
                     feedback_message := feedback_message g;
                     old_goal_id := old_goal_id g; planner := planner g;
                     always_assume_initialised := always_assume_initialised g;
                     doors := doors g; incoming_goal := incoming_goal g;
                     uuid := uuid g |})
    | None =>
        ([], Ok {| blackboard := blackboard g; config := config g;
                   root := None;
                   state := state g; locations := locations g;
                   has_a_new_goal := false;
                   feedback_message := feedback_message g;
                   old_goal_id := old_goal_id g; planner := planner g;
                   always_assume_initialised := always_assume_initialised g;
                   doors := doors g; incoming_goal := incoming_goal g;
                   uuid := uuid g |})
    end.
Proof.
  unfold pending, pre_tick_update.
  destruct (incoming_goal g) as [[|l ls]|]; [|done|]; intros _;
    destruct (root g) as [r|] eqn:Hr; try reflexivity.
Qed.
End pre_tick_update.

(** C2 as stated fails.  With no root yet but the robot assumed initialised,
    the planner is called with the flag false, where "no root or not assumed
    initialised" is true; the same happens with a root in place and the robot
    not assumed initialised. *)
Lemma C2_counterexample :
  let first := Hospital.accepted in
  let second :=
    Hospital.preempted_by ["ward_b"] in
  (no_root first = true
   ∧ GopherDeliveries.always_assume_initialised first = true
   ∧ (GopherDeliveries.pre_tick_update first "hospital").1
     = [CreateTree "hospital" ["pharmacy"; "ward_a"] false []]
   ∧ parking_flag_as_specified first = true)
  ∧ (no_root second = false
     ∧ GopherDeliveries.always_assume_initialised second = false
     ∧ (GopherDeliveries.pre_tick_update second "hospital").1
       = [CreateTree "hospital" ["ward_b"] false []]
     ∧ parking_flag_as_specified second = true).
Proof. vm_compute. repeat split; reflexivity. Qed.

(** C2, amended.  For every [pre_tick_update] call with a pending goal (and
    [doors] assigned, so that the planner is reached), the planner is called
    exactly once, first of all, and the flag it receives as
    [include_parking_behaviours] is true if and only if no root exists AND
    the robot is not assumed initialised. *)
Theorem C2_parking_flag_is_conjunction
    (g : GopherDeliveries.t) (world : string) (goal : list string) (d : Doors)
    (Hpending : pending g = Some goal)
    (Hdoors : GopherDeliveries.doors g = Some d) :
  ∃ rest,
    (GopherDeliveries.pre_tick_update g world).1
    = CreateTree world goal
        (no_root g && negb (GopherDeliveries.always_assume_initialised g)) d
      :: rest
    ∧ existsb is_create_tree rest = false.
Proof.
  rewrite (pre_tick_update_pending _ _ _ Hpending), Hdoors. cbn zeta.
  rewrite <- include_parking_behaviours_spec.
  destruct (create_tree _ _ _ _ _ _) as [[|c cs]|]; cbn;
    eexists; split; reflexivity.
Qed.

(** An instance of C2: the first goal of the hospital run. *)
Lemma C2_witness :
  pending Hospital.accepted = Some Hospital.goal_a
  ∧ GopherDeliveries.doors Hospital.accepted = Some []
  ∧ ∃ rest,
      (GopherDeliveries.pre_tick_update Hospital.accepted "hospital").1
      = CreateTree "hospital" Hospital.goal_a
          (no_root Hospital.accepted
           && negb (GopherDeliveries.always_assume_initialised
                      Hospital.accepted)) []
        :: rest
      ∧ existsb is_create_tree rest = false.
Proof.
  assert (Hp : pending Hospital.accepted = Some Hospital.goal_a)
    by reflexivity.
  assert (Hd : GopherDeliveries.doors Hospital.accepted = Some [])
    by reflexivity.
  split; [exact Hp|]. split; [exact Hd|].
  exact (C2_parking_flag_is_conjunction Hospital.accepted "hospital"
           Hospital.goal_a [] Hp Hd).
Defined.

(** C7.  When the planner has no decomposition for the pending goal ([None]
    or an empty list), [pre_tick_update] calls the planner, logs the warning
    and returns normally: root, state, blackboard and identifier supply are
    what they were (no tree was built), the pending-goal slot is cleared, and
    a following [pre_tick_update] does not reach the planner again. *)
Theorem C7_empty_decomposition
    (g : GopherDeliveries.t) (world : string) (goal : list string) (d : Doors)
    (Hpending : pending g = Some goal)
    (Hdoors : GopherDeliveries.doors g = Some d)
    (Hempty :
       empty_decomposition
         (create_tree (GopherDeliveries.planner g)
            (current_location (GopherDeliveries.planner g)) world goal
            (GopherDeliveries.include_parking_behaviours g) d) = true) :
  ∃ g',
    GopherDeliveries.pre_tick_update g world
    = ([CreateTree world goal
          (GopherDeliveries.include_parking_behaviours g) d;
        LogWarn GopherDeliveries.no_locations_warning], Ok g')
    ∧ GopherDeliveries.root g' = GopherDeliveries.root g
    ∧ GopherDeliveries.state g' = GopherDeliveries.state g
    ∧ GopherDeliveries.feedback_message g'
      = GopherDeliveries.feedback_message g
    ∧ GopherDeliveries.blackboard g' = GopherDeliveries.blackboard g
    ∧ GopherDeliveries.locations g' = GopherDeliveries.locations g
    ∧ GopherDeliveries.has_a_new_goal g' = GopherDeliveries.has_a_new_goal g
    ∧ GopherDeliveries.uuid g' = GopherDeliveries.uuid g
    ∧ GopherDeliveries.incoming_goal g' = None
    ∧ ∀ world',
        existsb is_create_tree
          (GopherDeliveries.pre_tick_update g' world').1 = false.
Proof.
  rewrite (pre_tick_update_pending _ _ _ Hpending), Hdoors. cbn zeta.
  destruct (create_tree _ _ _ _ _ _) as [[|c cs]|]; [|done|];
    (eexists; split; [reflexivity|]; repeat (split; [reflexivity|]);
     intros world'; rewrite pre_tick_update_idle by reflexivity; cbn;
     destruct (GopherDeliveries.root g) as [r|]; [|reflexivity];
     case_bool_decide; [|reflexivity];
     by destruct (traversed_locations _)).
Qed.

(** An instance of C7: the planner cannot decompose [morgue]. *)
Lemma C7_witness :
  let g :=
    (GopherDeliveries.set_goal
       Hospital.waiting_at_pharmacy (Some ["morgue"]) false []).1 in
  pending g = Some ["morgue"]
  ∧ GopherDeliveries.doors g = Some []
  ∧ empty_decomposition
      (create_tree (GopherDeliveries.planner g)
         (current_location (GopherDeliveries.planner g)) "hospital" ["morgue"]
         (GopherDeliveries.include_parking_behaviours g) []) = true
  ∧ ∃ g',
      (GopherDeliveries.pre_tick_update g "hospital").2 = Ok g'
      ∧ GopherDeliveries.root g' = GopherDeliveries.root g
      ∧ GopherDeliveries.incoming_goal g' = None.
Proof.
  intros g.
  assert (Hp : pending g = Some ["morgue"]) by reflexivity.
  assert (Hd : GopherDeliveries.doors g = Some []) by reflexivity.
  assert (He : empty_decomposition
                 (create_tree (GopherDeliveries.planner g)
                    (current_location (GopherDeliveries.planner g))
                    "hospital" ["morgue"]
                    (GopherDeliveries.include_parking_behaviours g) [])
               = true) by reflexivity.
  split; [exact Hp|]. split; [exact Hd|]. split; [exact He|].
  destruct (C7_empty_decomposition g "hospital" ["morgue"] [] Hp Hd He)
    as (g' & Hrun & Hroot & _ & _ & _ & _ & _ & _ & Hgoal & _).
  exists g'. rewrite Hrun. split; [reflexivity|]. split; assumption.
Defined.

(** C10.  A delivery system constructed with a preload of semantic locations
    has a pending goal but no [doors] attribute, and its first
    [pre_tick_update] raises AttributeError on [doors] before the planner is
    called.  In general, a [pre_tick_update] on a pending goal that returns
    normally found [doors] assigned; [set_goal] assigns it exactly when it
    accepts a goal, and neither [pre_tick_update] nor [post_tock_update]
    ever assigns it, so it can only have come from an accepted goal. *)
Theorem C10_preload_without_doors
    (bb : Blackboard) (cfg : Configuration) (uuid0 : nat) (name : string)
    (planner : Planner) (semantic_locations : list Location) (world : string)
    (Hpreload : semantic_locations ≠ []) :
  let g := GopherDeliveries.__init__ bb cfg uuid0 name planner
             (Some semantic_locations) in
  pending g = Some (unique_name <$> semantic_locations)
  ∧ GopherDeliveries.doors g = None
  ∧ GopherDeliveries.pre_tick_update g world
    = ([], Raise (AttributeError "doors"))
  ∧ (∀ (h h' : GopherDeliveries.t) world' goal,
       pending h = Some goal →
       (GopherDeliveries.pre_tick_update h world').2 = Ok h' →
       is_Some (GopherDeliveries.doors h))
  ∧ (∀ (h h' : GopherDeliveries.t) world',
       (GopherDeliveries.pre_tick_update h world').2 = Ok h' →
       GopherDeliveries.doors h' = GopherDeliveries.doors h)
  ∧ (∀ (h : GopherDeliveries.t) locations aai d,
       GopherDeliveries.doors
         (GopherDeliveries.set_goal h locations aai d).1
       = if bool_decide
              ((GopherDeliveries.set_goal h locations aai d).2.1
               = DeliveryErrorCodes.SUCCESS)
         then Some d else GopherDeliveries.doors h)
  ∧ (∀ (h h' : GopherDeliveries.t),
       GopherDeliveries.post_tock_update h = Ok h' →
       GopherDeliveries.doors h' = GopherDeliveries.doors h).
Proof.
  intros g.
  assert (Hp : pending g = Some (unique_name <$> semantic_locations)).
  { unfold pending, g. cbn. by destruct semantic_locations. }
  split; [exact Hp|]. split; [reflexivity|]. split.
  { by rewrite (pre_tick_update_pending _ _ _ Hp). }
  split; [|split; [|split]].
  - intros h h' world' goal Hh.
    rewrite (pre_tick_update_pending _ _ _ Hh).
    by destruct (GopherDeliveries.doors h) as [d|] eqn:Hd; [eexists|].
  - intros h h' world'. destruct (pending h) as [goal|] eqn:Hh.
    + rewrite (pre_tick_update_pending _ _ _ Hh).
      destruct (GopherDeliveries.doors h) as [d|] eqn:Hd; [|done]. cbn zeta.
      destruct (create_tree _ _ _ _ _ _) as [[|c cs]|]; cbn.
      * by intros [= <-].
      * destruct (GopherDeliveries.root h); cbn;
          [destruct (traversed_locations _); cbn|]; by intros [= <-].
      * by intros [= <-].
    + rewrite (pre_tick_update_idle _ _ Hh).
      destruct (GopherDeliveries.root h) as [r|]; [|by intros [= <-]].
      case_bool_decide; [|by intros [= <-]].
      destruct (traversed_locations _); cbn; by intros [= <-].
  - intros. apply set_goal_doors.
  - intros h h'. unfold GopherDeliveries.post_tock_update.
    destruct (GopherDeliveries.root h) as [r|]; [|by intros [= <-]].
    case_bool_decide; [|by intros [= <-]].
    destruct (GopherDeliveries.delivery_sequence h) as [ds|]; [|done]. cbn.
    case_bool_decide; [|by intros [= <-]].
    destruct (current_child ds) as [[w|n [| | |]|]|]; try by intros [= <-].
    destruct (traversed_locations _) as [t|]; [|done]. cbn.
    destruct (remaining_locations _) as [rm|]; [|done]. cbn.
    destruct (last t), (head rm); (done || by intros [= <-]).
Qed.

(** An instance of C10: the hospital preloaded with the pharmacy. *)
Lemma C10_witness :
  let locations := [ {| unique_name := "pharmacy"; name := "Pharmacy";
                        description := "the pharmacy" |} ] in
  locations ≠ []
  ∧ pending Hospital.preloaded = Some ["pharmacy"]
  ∧ GopherDeliveries.doors Hospital.preloaded = None
  ∧ GopherDeliveries.pre_tick_update Hospital.preloaded "hospital"
    = ([], Raise (AttributeError "doors")).
Proof.
  intros locations.
  assert (Hne : locations ≠ []) by discriminate.
  split; [exact Hne|].
  destruct (C10_preload_without_doors Hospital.empty_blackboard Hospital.cfg 0
              "deliveries" Hospital.planner locations "hospital" Hne)
    as (Hp & Hd & Hraise & _).
  split; [exact Hp|]. split; [exact Hd|]. exact Hraise.
Defined.

(** ** Classification: [post_tock_update] *)

(** C3 as stated fails: with no root, [post_tock_update] reports IDLE and
    "idling", not WAITING. *)
Lemma C3_counterexample :
  GopherDeliveries.root Hospital.fresh = None
  ∧ GopherDeliveries.post_tock_update Hospital.fresh
    = Ok (GopherDeliveries.report State.IDLE "idling" Hospital.fresh)
  ∧ GopherDeliveries.state
      (GopherDeliveries.report State.IDLE "idling" Hospital.fresh)
    ≠ State.WAITING.
Proof. split; [reflexivity|]. split; [reflexivity|]. cbn. congruence. Qed.

(** C3, amended.  When the root is RUNNING and the delivery sequence is not
    (the recovery or the cancellation branch is the active one),
    [post_tock_update] sets the state to WAITING and the feedback message to
    the recovery message and changes nothing else.  When there is no root it
    sets the state to IDLE and the message to "idling". *)
Theorem C3_recovery_is_waiting (g : GopherDeliveries.t) :
  (∀ r ds,
     GopherDeliveries.root g = Some r →
     Node.status (node r) = Status.RUNNING →
     GopherDeliveries.delivery_sequence g = Some ds →
     Node.status (node ds) ≠ Status.RUNNING →
     ∃ g',
       GopherDeliveries.post_tock_update g = Ok g'
       ∧ g' = GopherDeliveries.report State.WAITING
                GopherDeliveries.recovery_message g
       ∧ GopherDeliveries.state g' = State.WAITING
       ∧ GopherDeliveries.feedback_message g'
         = "delivery failed, waiting for human to teleop us back home before cancelling")
  ∧ (GopherDeliveries.root g = None →
     ∃ g',
       GopherDeliveries.post_tock_update g = Ok g'
       ∧ GopherDeliveries.state g' = State.IDLE
       ∧ GopherDeliveries.feedback_message g' = "idling").
Proof.
  split.
  - intros r ds Hr Hrun Hds Hnot.
    exists (GopherDeliveries.report State.WAITING
              GopherDeliveries.recovery_message g).
    split; [|done].
    unfold GopherDeliveries.post_tock_update. rewrite Hr, Hds. cbn.
    rewrite bool_decide_eq_true_2 by done.
    by rewrite bool_decide_eq_false_2 by done.
  - intros Hr. exists (GopherDeliveries.report State.IDLE "idling" g).
    split; [|done].
    unfold GopherDeliveries.post_tock_update. by rewrite Hr.
Qed.

(** Instances of C3: the recovering robot, and the fresh system without a
    root. *)
Lemma C3_witness :
  (∃ r ds,
     GopherDeliveries.root Hospital.recovering = Some r
     ∧ Node.status (node r) = Status.RUNNING
     ∧ GopherDeliveries.delivery_sequence Hospital.recovering = Some ds
     ∧ Node.status (node ds) ≠ Status.RUNNING
     ∧ ∃ g',
         GopherDeliveries.post_tock_update Hospital.recovering = Ok g'
         ∧ GopherDeliveries.state g' = State.WAITING)
  ∧ GopherDeliveries.root Hospital.fresh = None
  ∧ ∃ g',
      GopherDeliveries.post_tock_update Hospital.fresh = Ok g'
      ∧ GopherDeliveries.state g' = State.IDLE.
Proof.
  split.
  - destruct (GopherDeliveries.root Hospital.recovering) as [r|] eqn:Hr;
      [|discriminate Hr].
    destruct (GopherDeliveries.delivery_sequence Hospital.recovering)
      as [ds|] eqn:Hds; [|discriminate Hds].
    assert (Hrun : Node.status (node r) = Status.RUNNING).
    { injection Hr as <-. reflexivity. }
    assert (Hnot : Node.status (node ds) ≠ Status.RUNNING).
    { injection Hds as <-. discriminate. }
    exists r, ds. split; [reflexivity|]. split; [exact Hrun|].
    split; [reflexivity|]. split; [exact Hnot|].
    destruct (proj1 (C3_recovery_is_waiting Hospital.recovering)
                r ds Hr Hrun Hds Hnot) as (g' & Hpost & _ & Hstate & _).
    exists g'. split; assumption.
  - split; [reflexivity|].
    destruct (proj2 (C3_recovery_is_waiting Hospital.fresh) eq_refl)
      as (g' & Hpost & Hstate & _).
    exists g'. split; assumption.
Defined.

(** ** The engine *)

Section engine.
Implicit Types (bb : Blackboard) (b : Behaviour) (env : Env).

(** Induction on behaviours, with the hypothesis for all children. *)
Lemma Behaviour_nested_ind (P : Behaviour → Prop) :
  (∀ w, P (Gate w)) →
  (∀ n k, P (Leaf n k)) →
  (∀ n k cur cs, Forall P cs → P (Composite n k cur cs)) →
  ∀ b, P b.
Proof.
  intros Hgate Hleaf Hcomposite. fix IH 1.
  intros [w|n k|n k cur cs]; [apply Hgate|apply Hleaf|].
  apply Hcomposite. induction cs as [|c cs IHcs]; constructor.
  - apply IH.
  - exact IHcs.
Qed.

Lemma bind_Ok {A B} (a : A) (k : A → result B) : (Ok a ≫= k) = k a.
Proof. reflexivity. Qed.

Lemma on_route_start before goal bb :
  traversed_locations bb = Some before →
  remaining_locations bb = Some goal →
  on_route before goal bb.
Proof. intros Ht Hr. exists 0. by rewrite take_0, drop_0, app_nil_r. Qed.

Lemma on_route_lists before goal bb :
  on_route before goal bb →
  ∃ t r, traversed_locations bb = Some t ∧ remaining_locations bb = Some r
         ∧ t ++ r = before ++ goal.
Proof.
  intros (k & Ht & Hr). eexists _, _. split; [done|]. split; [done|].
  by rewrite <- app_assoc, take_drop.
Qed.

(** One leg moves the head of the remaining locations to the end of the
    traversed ones. *)
Lemma complete_leg_step bb t here rest :
  traversed_locations bb = Some t →
  remaining_locations bb = Some (here :: rest) →
  complete_leg bb
  = Ok (set_remaining_locations rest
          (set_traversed_locations (t ++ [here]) bb)).
Proof. intros Ht Hr. unfold complete_leg. by rewrite Ht, Hr. Qed.

Lemma complete_leg_on_route before goal bb :
  on_route before goal bb →
  ∃ bb', complete_leg bb = Ok bb' ∧ on_route before goal bb'
         ∧ is_waiting bb' = is_waiting bb.
Proof.
  intros (k & Ht & Hr). unfold complete_leg. rewrite Ht, Hr. cbn.
  destruct (drop k goal) as [|here rest] eqn:Hdrop.
  - eexists. split; [done|]. split; [|done]. exists k. by rewrite Hdrop.
  - eexists. split; [done|]. split; [|done]. exists (S k). cbn.
    assert (Hk : goal !! k = Some here).
    { rewrite <- (Nat.add_0_r k), <- lookup_drop, Hdrop. done. }
    rewrite (take_S_r _ _ _ Hk), app_assoc. split; [done|].
    rewrite (drop_S _ _ _ Hk) in Hdrop. by injection Hdrop as <-.
Qed.

Lemma below_child path i (tr : Trace) :
  Forall (λ p, (path ++ [i]) `prefix_of` p) tr →
  Forall (λ p, path `prefix_of` p) tr.
Proof.
  intros Htr. eapply Forall_impl; [exact Htr|].
  intros p Hp. etrans; [|exact Hp]. by apply prefix_app_r.
Qed.

Lemma tick_sequence_ok f before goal cs :
  Forall (tick_ok f before goal) cs →
  ∀ path i start bb, on_route before goal bb →
    ∃ bb' cs' tr s j,
      tick_sequence f path i start bb cs = Ok (bb', cs', tr, s, j)
      ∧ on_route before goal bb'
      ∧ is_waiting bb' = is_waiting bb
      ∧ Forall (λ p, path `prefix_of` p) tr.
Proof.
  induction 1 as [|c cs Hc _ IH]; intros path i start bb Hbb; cbn.
  { by eexists _, _, _, _, _. }
  case_bool_decide.
  - destruct (IH path (S i) start bb Hbb)
      as (bb' & cs' & tr & s & j & -> & ? & ? & ?).
    rewrite bind_Ok. by eexists _, _, _, _, _.
  - destruct (Hc (path ++ [i]) bb Hbb) as (bb1 & c' & tr1 & -> & H1 & E1 & T1).
    rewrite bind_Ok. apply below_child in T1. case_bool_decide.
    + destruct (IH path (S i) start bb1 H1)
        as (bb2 & cs' & tr2 & s & j & -> & ? & E2 & ?).
      rewrite bind_Ok. eexists _, _, _, _, _. split; [done|].
      split; [done|]. split; [congruence|]. by apply Forall_app.
    + by eexists _, _, _, _, _.
Qed.

Lemma tick_selector_ok f before goal cs :
  Forall (tick_ok f before goal) cs →
  ∀ path i bb, on_route before goal bb →
    ∃ bb' cs' tr s,
      tick_selector f path i bb cs = Ok (bb', cs', tr, s)
      ∧ on_route before goal bb'
      ∧ is_waiting bb' = is_waiting bb
      ∧ Forall (λ p, path `prefix_of` p) tr.
Proof.
  induction 1 as [|c cs Hc _ IH]; intros path i bb Hbb; cbn.
  { by eexists _, _, _, _. }
  destruct (Hc (path ++ [i]) bb Hbb) as (bb1 & c' & tr1 & -> & H1 & E1 & T1).
  rewrite bind_Ok. apply below_child in T1.
  destruct (_ || _).
  - by eexists _, _, _, _.
  - destruct (IH path (S i) bb1 H1)
      as (bb2 & cs' & tr2 & s & -> & ? & E2 & ?).
    rewrite bind_Ok. eexists _, _, _, _. split; [done|].
    split; [done|]. split; [congruence|]. by apply Forall_app.
Qed.

(** Every tick returns on a blackboard that is on route, and keeps it so. *)
Lemma tick_on_route env before goal b : tick_ok (tick env) before goal b.
Proof.
  induction b as [w|n k|n k cur cs IH] using Behaviour_nested_ind;
    intros path bb Hbb.
  - destruct (on_route_lists _ _ _ Hbb) as (t & r & _ & Hr & _).
    cbn [tick]. rewrite (update_status _ _ _ Hr), bind_Ok.
    eexists _, _, _. split; [done|]. split; [done|]. split; [done|].
    by apply Forall_singleton.
  - cbn [tick].
    assert (∃ bb', match k with
                   | MoveToGoal =>
                       if bool_decide (env path = Status.SUCCESS)
                       then complete_leg bb else Ok bb
                   | _ => Ok bb
                   end = Ok bb'
                   ∧ on_route before goal bb'
                   ∧ is_waiting bb' = is_waiting bb)
      as (bb' & -> & ? & ?).
    { destruct k; try by eexists. case_bool_decide; [|by eexists].
      by apply complete_leg_on_route. }
    rewrite bind_Ok. eexists _, _, _. split; [done|]. split; [done|].
    split; [done|]. by apply Forall_singleton.
  - pose proof (tick_sequence_ok _ _ _ _ IH path 0
                  (if bool_decide (Node.status n = Status.RUNNING)
                   then default 0 cur else 0) bb Hbb)
      as (bb1 & cs1 & tr1 & s1 & j1 & Hseq & ? & ? & ?).
    pose proof (tick_selector_ok _ _ _ _ IH path 0 bb Hbb)
      as (bb2 & cs2 & tr2 & s2 & Hsel & ? & ? & ?).
    cbn [tick]. destruct k.
    + cbn zeta. rewrite Hseq, bind_Ok. by eexists _, _, _.
    + destruct (Status.final _).
      * eexists _, _, _. split; [done|]. split; [done|]. split; [done|].
        constructor.
      * cbn zeta. rewrite Hseq, bind_Ok. by eexists _, _, _.
    + rewrite Hsel, bind_Ok. by eexists _, _, _.
Qed.
End engine.

(** ** The oneshot delivery sequence *)

Section oneshot.
Implicit Types (bb : Blackboard) (r ds : Behaviour) (env : Env).

Lemma tick_oneshot_final env path bb nd cd cs :
  Status.final (Node.status nd) = true →
  tick env path bb (Composite nd OneshotSequence cd cs)
  = Ok (bb, Composite nd OneshotSequence cd cs, []).
Proof. intros Hfinal. cbn. by rewrite Hfinal. Qed.

Lemma delivery_branch_around r ds :
  delivery_branch r = Some ds →
  root_around ds r ∧ ∃ nd cd cs, ds = Composite nd OneshotSequence cd cs.
Proof.
  destruct r as [|?|n [] cur [|c [|[|?|n' [] cur' [|[|?|nd [] cd cs] [|rec [|]]]]
                                    [|]]]]; try done.
  intros [= <-]. split; [by eexists _, _, _, _, _, _|by eexists _, _, _].
Qed.

Lemma around_delivery_branch r nd cd cs :
  root_around (Composite nd OneshotSequence cd cs) r →
  delivery_branch r = Some (Composite nd OneshotSequence cd cs).
Proof. by intros (n & cur & c & n' & cur' & rec & ->). Qed.

Lemma around_delivery_sequence (g : GopherDeliveries.t) r ds :
  GopherDeliveries.root g = Some r → root_around ds r →
  GopherDeliveries.delivery_sequence g = Some ds.
Proof.
  intros Hr (n & cur & c & n' & cur' & rec & ->).
  unfold GopherDeliveries.delivery_sequence, GopherDeliveries.delivery_selector.
  by rewrite Hr.
Qed.

(** The tree [pre_tick_update] assembles has the shape. *)
Lemma new_root_around cfg u children :
  root_around (GopherDeliveries.new_delivery_sequence u children)
    (GopherDeliveries.new_root cfg u children).
Proof. by eexists _, _, _, _, _, _. Qed.

Lemma not_under_delivery (tr : Trace) (path : list nat) :
  Forall (λ p, path `prefix_of` p) tr →
  ¬ delivery_position `prefix_of` path →
  ¬ path `prefix_of` delivery_position →
  ¬ ran_under delivery_position tr.
Proof.
  intros Htr Hn1 Hn2 (p & Hp & Hpre).
  rewrite Forall_forall in Htr. specialize (Htr p Hp).
  destruct (prefix_weak_total _ _ _ Htr Hpre); done.
Qed.

(** A tick of the root over a final delivery sequence returns, leaves the
    sequence as it is and runs none of its steps. *)
Lemma tick_root_around env bb before goal nd cd cs r :
  let ds := Composite nd OneshotSequence cd cs in
  root_around ds r →
  Status.final (Node.status nd) = true →
  on_route before goal bb →
  ∃ bb' r' tr,
    tick env [] bb r = Ok (bb', r', tr)
    ∧ root_around ds r'
    ∧ on_route before goal bb'
    ∧ is_waiting bb' = is_waiting bb
    ∧ ¬ ran_under delivery_position tr.
Proof.
  intros ds (n & cur & c & n' & cur' & rec & ->) Hfinal Hbb.
  destruct (tick_on_route env before goal c [0] bb Hbb)
    as (bb1 & c' & tr1 & Hc & H1 & E1 & T1).
  destruct (tick_on_route env before goal rec [1; 1] bb1 H1)
    as (bb2 & rec' & tr2 & Hrec & H2 & E2 & T2).
  assert (Hds : tick env [1; 0] bb1 ds = Ok (bb1, ds, []))
    by by apply tick_oneshot_final.
  assert (N0 : ¬ ran_under delivery_position tr1).
  { eapply not_under_delivery; [exact T1|..]; by intros [? [=]]. }
  assert (N1 : ¬ ran_under delivery_position tr2).
  { eapply not_under_delivery; [exact T2|..]; by intros [? [=]]. }
  assert (N2 : ∀ tr tr' : Trace, ¬ ran_under delivery_position tr →
               ¬ ran_under delivery_position tr' →
               ¬ ran_under delivery_position (tr ++ tr')).
  { intros tr tr' Ha Hb (p & [Hp|Hp]%elem_of_app & Hpre);
      [apply Ha|apply Hb]; by exists p. }
  assert (N3 : ¬ ran_under delivery_position []).
  { intros (p & Hp & _). by apply elem_of_nil in Hp. }
  cbn [tick tick_selector app]. rewrite Hc, bind_Ok.
  destruct (_ || _).
  { rewrite bind_Ok. eexists _, _, _. split; [done|].
    split; [by eexists _, _, _, _, _, _|]. by auto. }
  rewrite Hds, bind_Ok.
  change (Node.status (node ds)) with (Node.status nd).
  destruct (Node.status nd); try discriminate Hfinal.
  - cbn. eexists _, _, _. split; [done|].
    split; [by eexists _, _, _, _, _, _|]. by auto.
  - replace (bool_decide (Status.FAILURE = Status.RUNNING)
             || bool_decide (Status.FAILURE = Status.SUCCESS)) with false
      by reflexivity.
    rewrite Hrec, bind_Ok.
    destruct (_ || _) eqn:Hactive.
    + rewrite !bind_Ok. cbn [node Node.status Node.set_status].
      rewrite Hactive, !bind_Ok.
      eexists _, _, _. split; [done|].
      split; [by eexists _, _, _, _, _, _|].
      split; [done|]. split; [congruence|]. by auto.
    + rewrite !bind_Ok. cbn.
      eexists _, _, _. split; [done|].
      split; [by eexists _, _, _, _, _, _|].
      split; [done|]. split; [congruence|]. by auto 10.
Qed.

(** Whatever the status of the delivery sequence, a tick leaves the root in
    the shape it was assembled in. *)
Lemma tick_keeps_delivery_branch env bb r ds bb' r' tr :
  delivery_branch r = Some ds →
  tick env [] bb r = Ok (bb', r', tr) →
  ∃ ds', delivery_branch r' = Some ds'.
Proof.
  intros [(n & cur & c & n' & cur' & rec & ->) (nd & cd & cs & ->)]
    %delivery_branch_around.
  set (ds := Composite nd OneshotSequence cd cs).
  cbn [tick tick_selector app].
  destruct (tick env [0] bb c) as [[[bb1 c'] tr1]|]; [|done].
  rewrite bind_Ok. destruct (_ || _).
  { rewrite bind_Ok. intros [= <- <- <-]. by eexists. }
  assert (∃ bb2 nd2 cd2 cs2 tr2,
            tick env [1; 0] bb1 ds
            = Ok (bb2, Composite nd2 OneshotSequence cd2 cs2, tr2)
          ∨ ∃ e, tick env [1; 0] bb1 ds = Raise e)
    as (bb2 & nd2 & cd2 & cs2 & tr2 & [Hds|[e Hds]]).
  { unfold ds. cbn [tick]. destruct (Status.final _); [by eexists _, _, _, _, _; left|].
    cbn zeta. destruct (tick_sequence _ _ _ _ _ _) as [[[[[b2 c2] t2] s2] j2]|].
    - rewrite bind_Ok. eexists _, _, _, _, _. by left.
    - exists bb1, nd, cd, cs, []. right. by eexists. }
  2:{ by rewrite Hds. }
  rewrite Hds, bind_Ok. cbn [node].
  destruct (_ || _).
  { rewrite !bind_Ok. cbn [node Node.status Node.set_status].
    destruct (_ || _); rewrite !bind_Ok; intros [= <- <- <-]; by eexists. }
  destruct (tick env [1; 1] bb2 rec) as [[[bb3 rec'] tr3]|]; [|done].
  rewrite bind_Ok.
  destruct (_ || _); rewrite !bind_Ok; cbn [node Node.status Node.set_status];
    destruct (_ || _); rewrite !bind_Ok; intros [= <- <- <-]; by eexists.
Qed.
End oneshot.

(** ** Cycles without a new goal *)

Section cycles.
Implicit Types (g : GopherDeliveries.t) (r ds : Behaviour) (env : Env).

(** [post_tock_update] writes the state and the feedback message only. *)
Lemma post_tock_update_report g g' :
  GopherDeliveries.post_tock_update g = Ok g' →
  g' = g ∨ ∃ s m, g' = GopherDeliveries.report s m g.
Proof.
  unfold GopherDeliveries.post_tock_update.
  destruct (GopherDeliveries.root g) as [r|]; [|intros [= <-]; eauto].
  case_bool_decide; [|intros [= <-]; eauto].
  destruct (GopherDeliveries.delivery_sequence g) as [ds|]; [|done]. cbn.
  case_bool_decide; [|intros [= <-]; eauto].
  destruct (current_child ds) as [[w|n [| | |]|]|];
    try (intros [= <-]; eauto; fail).
  destruct (traversed_locations _) as [t|]; [|done]. cbn.
  destruct (remaining_locations _) as [rm|]; [|done]. cbn.
  destruct (last t), (head rm); (done || intros [= <-]; eauto).
Qed.

Lemma post_tock_update_final g r ds :
  GopherDeliveries.root g = Some r → root_around ds r →
  Status.final (Node.status (node ds)) = true →
  ∃ s m, GopherDeliveries.post_tock_update g
         = Ok (GopherDeliveries.report s m g)
         ∧ s ≠ State.TRAVELLING.
Proof.
  intros Hr Haround Hfinal. unfold GopherDeliveries.post_tock_update.
  rewrite Hr, (around_delivery_sequence _ _ _ Hr Haround).
  case_bool_decide; [|by eexists _, _]. cbn [getattr]. rewrite bind_Ok.
  case_bool_decide as Hrun; [|by eexists _, _].
  by rewrite Hrun in Hfinal.
Qed.

(** One cycle over a final delivery sequence. *)
Lemma cycle_retained world env ds g :
  (∃ nd cd cs, ds = Composite nd OneshotSequence cd cs) →
  Status.final (Node.status (node ds)) = true →
  retained ds g →
  ∃ g' tr,
    cycle world env g = Ok (g', tr)
    ∧ retained ds g'
    ∧ ¬ ran_under delivery_position tr.
Proof.
  intros (nd & cd & cs & ->) Hfinal (Hidle & (before & goal & Hbb) & Hroot).
  assert (N3 : ¬ ran_under delivery_position []).
  { intros (p & Hp & _). by apply elem_of_nil in Hp. }
  destruct (on_route_lists _ _ _ Hbb) as (t & rm & Ht & Hrm & _).
  unfold cycle. rewrite (pre_tick_update_idle _ _ Hidle).
  destruct Hroot as [Hnone|(r & Hr & Haround)].
  - rewrite Hnone. cbn.
    eexists _, _. split; [done|]. split; [|done].
    split; [done|]. split; [by eexists _, _|by left].
  - rewrite Hr. case_bool_decide as Hsucc.
    + rewrite Ht. cbn.
      eexists _, _. split; [done|]. split; [|done].
      split; [done|]. split; [by eexists _, _|by left].
    + cbn [snd]. rewrite bind_Ok. unfold tick_root.
      cbn [GopherDeliveries.root GopherDeliveries.blackboard].
      destruct (tick_root_around env _ _ _ _ _ _ _ Haround Hfinal Hbb)
        as (bb' & r' & tr & -> & Haround' & Hbb' & _ & Hran).
      rewrite !bind_Ok. set (g2 := with_tree _ _ _).
      destruct (post_tock_update_final g2 r' _ eq_refl Haround' Hfinal)
        as (s & m & -> & _).
      rewrite bind_Ok. eexists _, _. split; [done|]. split; [|done].
      split; [done|]. split; [by eexists _, _|].
      right. by exists r'.
Qed.

Lemma cycles_retained world ds envs : ∀ g,
  (∃ nd cd cs, ds = Composite nd OneshotSequence cd cs) →
  Status.final (Node.status (node ds)) = true →
  retained ds g →
  ∃ g' traces,
    cycles world envs g = Ok (g', traces)
    ∧ retained ds g'
    ∧ length traces = length envs
    ∧ Forall (λ tr, ¬ ran_under delivery_position tr) traces.
Proof.
  induction envs as [|env envs IH]; intros g Hds Hfinal Hg; cbn [cycles].
  { by eexists _, _. }
  destruct (cycle_retained world env ds g Hds Hfinal Hg)
    as (g1 & tr & -> & Hg1 & Htr).
  rewrite bind_Ok.
  destruct (IH g1 Hds Hfinal Hg1) as (g2 & trs & -> & Hg2 & Hlen & Htrs).
  rewrite bind_Ok. eexists _, _. split; [done|]. split; [done|].
  split; [by cbn; rewrite Hlen|]. by constructor.
Qed.

(** Without a new goal the blackboard stays on the route of the goal under
    way, cycle after cycle. *)
Lemma cycle_on_route world env before goal g g' tr :
  pending g = None →
  on_route before goal (GopherDeliveries.blackboard g) →
  cycle world env g = Ok (g', tr) →
  pending g' = None ∧ on_route before goal (GopherDeliveries.blackboard g').
Proof.
  intros Hidle Hbb. unfold cycle.
  rewrite (pre_tick_update_idle _ _ Hidle).
  destruct (on_route_lists _ _ _ Hbb) as (t & rm & Ht & Hrm & _).
  assert (∃ g1, (match GopherDeliveries.root g with
                 | Some r =>
                     if bool_decide (Node.status (node r) = Status.SUCCESS)
                     then _ else _
                 | None => _
                 end).2 = Ok g1
                ∧ pending g1 = None
                ∧ GopherDeliveries.blackboard g1 = GopherDeliveries.blackboard g)
    as (g1 & -> & Hidle1 & Hbb1).
  { destruct (GopherDeliveries.root g) as [r|]; [|by eexists].
    case_bool_decide; [|by eexists]. rewrite Ht. by eexists. }
  rewrite bind_Ok. unfold tick_root.
  destruct (GopherDeliveries.root g1) as [r1|].
  - rewrite <- Hbb1 in Hbb.
    destruct (tick_on_route env before goal r1 [] _ Hbb)
      as (bb2 & r2 & tr2 & -> & Hbb2 & _ & _).
    rewrite !bind_Ok.
    destruct (GopherDeliveries.post_tock_update _) as [g3|] eqn:Hpost; [|done].
    rewrite bind_Ok. intros [= <- _].
    by destruct (post_tock_update_report _ _ Hpost) as [->|(s & m & ->)].
  - rewrite !bind_Ok.
    destruct (GopherDeliveries.post_tock_update _) as [g3|] eqn:Hpost; [|done].
    rewrite bind_Ok. intros [= <- _]. rewrite <- Hbb1 in Hbb.
    by destruct (post_tock_update_report _ _ Hpost) as [->|(s & m & ->)].
Qed.

Lemma cycles_on_route world before goal envs : ∀ g g' traces,
  pending g = None →
  on_route before goal (GopherDeliveries.blackboard g) →
  cycles world envs g = Ok (g', traces) →
  pending g' = None ∧ on_route before goal (GopherDeliveries.blackboard g').
Proof.
  induction envs as [|env envs IH]; intros g g' traces Hidle Hbb; cbn [cycles].
  { by intros [= <- _]. }
  destruct (cycle world env g) as [[g1 tr]|] eqn:Hcycle; [|done].
  rewrite bind_Ok.
  destruct (cycle_on_route _ _ _ _ _ _ _ Hidle Hbb Hcycle) as [Hidle1 Hbb1].
  destruct (cycles world envs g1) as [[g2 trs]|] eqn:Hrest; [|done].
  rewrite bind_Ok. intros [= <- _]. by eapply IH.
Qed.
End cycles.

(** C4.  Take a root of the shape [pre_tick_update] assembles, whose oneshot
    delivery sequence [ds] (at position [1; 0]) has reached SUCCESS or
    FAILURE, and no pending goal.  Then any number of cycles
    ([pre_tick_update], tick, [post_tock_update]) with no goal submitted
    returns normally, no tick runs a leaf below the delivery sequence, and
    afterwards the root is either discarded or still carries [ds] itself:
    the same status, the same children, untouched. *)
Theorem C4_oneshot_retains_final_status
    (world : string) (envs : list Env) (g : GopherDeliveries.t)
    (r ds : Behaviour) (t rm : list string)
    (Hno_goal : pending g = None)
    (Hroot : GopherDeliveries.root g = Some r)
    (Hds : delivery_branch r = Some ds)
    (Hfinal : Status.final (Node.status (node ds)) = true)
    (Ht : traversed_locations (GopherDeliveries.blackboard g) = Some t)
    (Hrm : remaining_locations (GopherDeliveries.blackboard g) = Some rm) :
  ∃ g' traces,
    cycles world envs g = Ok (g', traces)
    ∧ length traces = length envs
    ∧ Forall (λ tr, ¬ ran_under delivery_position tr) traces
    ∧ pending g' = None
    ∧ (GopherDeliveries.root g' = None
       ∨ ∃ r', GopherDeliveries.root g' = Some r'
               ∧ delivery_branch r' = Some ds
               ∧ GopherDeliveries.delivery_sequence g' = Some ds).
Proof.
  destruct (delivery_branch_around _ _ Hds) as [Haround Hshape].
  assert (Hg : retained ds g).
  { split; [done|]. split; [|right; by exists r].
    exists t, rm. by apply on_route_start. }
  destruct (cycles_retained world ds envs g Hshape Hfinal Hg)
    as (g' & traces & Hrun & (Hidle' & _ & Hroot') & Hlen & Htraces).
  exists g', traces. repeat (split; [done|]).
  destruct Hroot' as [?|(r' & Hr' & Haround')]; [by left|right].
  exists r'. split; [done|]. destruct Hshape as (nd & cd & cs & ->).
  split; [by apply around_delivery_branch|].
  by eapply around_delivery_sequence.
Qed.

(** An instance of C4: the delivery sequence that failed on its first leg,
    three cycles on. *)
Lemma C4_witness :
  let g := Hospital.recovering in
  let envs := [Hospital.travel_fails; Hospital.all_succeed;
               Hospital.cancel_not_pressed] in
  pending g = None
  ∧ GopherDeliveries.root g = Some Hospital.failed_root
  ∧ delivery_branch Hospital.failed_root = Some Hospital.failed_sequence
  ∧ Node.status (node Hospital.failed_sequence) = Status.FAILURE
  ∧ ∃ g' traces,
      cycles "hospital" envs g = Ok (g', traces)
      ∧ length traces = 3
      ∧ Forall (λ tr, ¬ ran_under delivery_position tr) traces.
Proof.
  intros g envs.
  assert (H1 : pending g = None) by reflexivity.
  assert (H2 : GopherDeliveries.root g = Some Hospital.failed_root)
    by reflexivity.
  assert (H3 : delivery_branch Hospital.failed_root
               = Some Hospital.failed_sequence) by reflexivity.
  assert (H4 : Status.final (Node.status (node Hospital.failed_sequence))
               = true) by reflexivity.
  assert (H5 : traversed_locations (GopherDeliveries.blackboard g) = Some [])
    by reflexivity.
  assert (H6 : remaining_locations (GopherDeliveries.blackboard g)
               = Some ["pharmacy"; "ward_a"]) by reflexivity.
  split; [exact H1|]. split; [exact H2|]. split; [exact H3|].
  split; [reflexivity|].
  destruct (C4_oneshot_retains_final_status "hospital" envs g
              Hospital.failed_root Hospital.failed_sequence _ _
              H1 H2 H3 H4 H5 H6)
    as (g' & traces & Hrun & Hlen & Htraces & _).
  exists g', traces. split; [exact Hrun|]. split; [exact Hlen|exact Htraces].
Defined.

(** ** Preemption and location bookkeeping *)

(** C5 as stated fails, in two ways.  Goal A = [pharmacy, ward_a] was
    accepted while IDLE and its tree is under way: the robot waits at the
    pharmacy.  (1) The empty goal B = [] submitted while WAITING is answered
    GOAL_EMPTY_NOTHING_TO_DO: it is not accepted, the pending-goal slot is
    left as it was and the next [pre_tick_update] does not call the planner.
    (2) In the clinic, B = [ward_b] is a goal of known locations, submitted
    while WAITING and accepted; the robot has meanwhile been taken to the
    annex, a world the planner has no map of, so the decomposition is empty
    and the next [pre_tick_update] assembles nothing: the root is still A's
    tree and the remaining locations are still A's. *)
Lemma C5_counterexample :
  let refused :=
    GopherDeliveries.set_goal Hospital.waiting_at_pharmacy (Some []) false [] in
  let after_refusal := Hospital.next_cycle refused.1 in
  let submitted :=
    GopherDeliveries.set_goal
      Clinic.waiting_at_pharmacy (Some ["ward_b"]) false [] in
  let planned := GopherDeliveries.pre_tick_update submitted.1 "annex" in
  let g' := match planned.2 with Ok g' => g' | Raise _ => Clinic.fresh end in
  (GopherDeliveries.state Hospital.waiting_at_pharmacy = State.WAITING
   ∧ refused.2 = (DeliveryErrorCodes.GOAL_EMPTY_NOTHING_TO_DO,
                  "goal empty, nothing to do.")
   ∧ GopherDeliveries.incoming_goal refused.1 = None
   ∧ (GopherDeliveries.pre_tick_update refused.1 "hospital").1 = []
   ∧ GopherDeliveries.root after_refusal
     = GopherDeliveries.root Hospital.waiting_at_pharmacy
   ∧ remaining_locations (GopherDeliveries.blackboard after_refusal)
     = Some ["ward_a"])
  ∧ (GopherDeliveries.state Clinic.waiting_at_pharmacy = State.WAITING
     ∧ check_locations (GopherDeliveries.planner Clinic.waiting_at_pharmacy)
         ["ward_b"] = true
     ∧ submitted.2 = (DeliveryErrorCodes.SUCCESS, "pre-empting current goal")
     ∧ planned.1 = [CreateTree "annex" ["ward_b"] false [];
                    LogWarn GopherDeliveries.no_locations_warning]
     ∧ is_ok planned.2 = true
     ∧ GopherDeliveries.root g'
       = GopherDeliveries.root Clinic.waiting_at_pharmacy
     ∧ remaining_locations (GopherDeliveries.blackboard g') = Some ["ward_a"]
     ∧ remaining_locations (GopherDeliveries.blackboard g') ≠ Some ["ward_b"]
     ∧ (children <$> GopherDeliveries.delivery_sequence g')
       = (children <$>
            GopherDeliveries.delivery_sequence Clinic.waiting_at_pharmacy)).
Proof.
  vm_compute. split.
  - repeat (split; [reflexivity|]). reflexivity.
  - repeat (split; [reflexivity|]). split; [discriminate|reflexivity].
Qed.


(** C5, amended.  While WAITING, a non-empty goal B of locations the planner
    knows is accepted and replaces whatever the pending-goal slot held; root
    and blackboard are not touched by the submission.  The next
    [pre_tick_update] returns normally, calls the planner once, with B, and
    clears the slot.  If the planner's decomposition of B is non-empty, the
    root is replaced by a new tree whose delivery sequence has exactly the
    planner's steps for B as children, and the remaining locations become
    exactly B's list.  If the decomposition is empty ([None] or no step), a
    warning is logged and no tree is assembled: the root, the delivery
    sequence and the blackboard are still those of A, and the state is still
    WAITING. *)
Theorem C5_preemption_while_waiting
    (g : GopherDeliveries.t) (goal_b : list string) (aai : bool) (d : Doors)
    (world : string) (t : list string)
    (Hwaiting : GopherDeliveries.state g = State.WAITING)
    (Hnonempty : goal_b ≠ [])
    (Hknown : check_locations (GopherDeliveries.planner g) goal_b = true)
    (Htraversed :
       traversed_locations (GopherDeliveries.blackboard g) = Some t) :
  let submitted := GopherDeliveries.set_goal g (Some goal_b) aai d in
  let parking := no_root g && negb aai in
  let planned := GopherDeliveries.pre_tick_update submitted.1 world in
  submitted.2 = (DeliveryErrorCodes.SUCCESS, "pre-empting current goal")
  ∧ GopherDeliveries.incoming_goal submitted.1 = Some goal_b
  ∧ GopherDeliveries.root submitted.1 = GopherDeliveries.root g
  ∧ GopherDeliveries.blackboard submitted.1 = GopherDeliveries.blackboard g
  ∧ ∃ g',
      planned.2 = Ok g'
      ∧ GopherDeliveries.incoming_goal g' = None
      ∧ match create_tree (GopherDeliveries.planner g)
                (current_location (GopherDeliveries.planner g)) world goal_b
                parking d with
        | Some ((_ :: _) as steps) =>
            planned.1 = [CreateTree world goal_b parking d]
            ∧ GopherDeliveries.root g'
              = Some (GopherDeliveries.new_root (GopherDeliveries.config g)
                        (GopherDeliveries.uuid g) steps)
            ∧ GopherDeliveries.delivery_sequence g'
              = Some (GopherDeliveries.new_delivery_sequence
                        (GopherDeliveries.uuid g) steps)
            ∧ (children <$> GopherDeliveries.delivery_sequence g') = Some steps
            ∧ remaining_locations (GopherDeliveries.blackboard g')
              = Some goal_b
            ∧ GopherDeliveries.locations g' = RemainingLocations
            ∧ GopherDeliveries.has_a_new_goal g' = true
            ∧ GopherDeliveries.old_goal_id g'
              = (λ r, Node.id (node r)) <$> GopherDeliveries.root g
        | _ =>
            planned.1 = [CreateTree world goal_b parking d;
                         LogWarn GopherDeliveries.no_locations_warning]
            ∧ GopherDeliveries.root g' = GopherDeliveries.root g
            ∧ GopherDeliveries.delivery_sequence g'
              = GopherDeliveries.delivery_sequence g
            ∧ GopherDeliveries.blackboard g' = GopherDeliveries.blackboard g
            ∧ GopherDeliveries.locations g' = GopherDeliveries.locations g
            ∧ GopherDeliveries.state g' = State.WAITING
        end.
Proof.
  intros submitted parking planned. unfold planned, submitted, parking.
  rewrite (set_goal_waiting _ _ _ _ Hwaiting Hnonempty). cbn [fst snd].
  split; [done|]. split; [done|]. split; [done|]. split; [done|].
  set (g1 := GopherDeliveries.assign_goal goal_b aai d g).
  assert (Hp : pending g1 = Some goal_b).
  { apply pending_Some. by split. }
  rewrite (pre_tick_update_pending _ _ _ Hp).
  replace (GopherDeliveries.include_parking_behaviours g1)
    with (no_root g && negb aai) by by rewrite include_parking_behaviours_spec.
  subst g1. unfold GopherDeliveries.assign_goal.
  cbn [GopherDeliveries.doors GopherDeliveries.planner GopherDeliveries.root
       GopherDeliveries.blackboard GopherDeliveries.config
       GopherDeliveries.uuid GopherDeliveries.state
       GopherDeliveries.locations].
  cbn zeta.
  destruct (create_tree _ _ _ _ _ _) as [[|s1 steps]|].
  - eexists. split; [reflexivity|]. rewrite Hwaiting. done.
  - assert (∃ t', match GopherDeliveries.root g with
                  | Some _ => getattr "traversed_locations" (Some t)
                  | None => Ok []
                  end = Ok t') as [t' Ht'].
    { destruct (GopherDeliveries.root g); by eexists. }
    rewrite Htraversed, Ht', bind_Ok. cbn [fst snd].
    eexists. split; [reflexivity|]. done.
  - eexists. split; [reflexivity|]. rewrite Hwaiting. done.
Qed.


(** Two instances of C5: [ward_b] preempts at the pharmacy gate of the
    hospital, where the planner decomposes it, and at the pharmacy gate of
    the clinic with the robot in the annex, where it does not. *)
Lemma C5_witness :
  let g := Hospital.waiting_at_pharmacy in
  let c := Clinic.waiting_at_pharmacy in
  (GopherDeliveries.state g = State.WAITING
   ∧ ["ward_b"] ≠ ([] : list string)
   ∧ check_locations (GopherDeliveries.planner g) ["ward_b"] = true
   ∧ traversed_locations (GopherDeliveries.blackboard g) = Some ["pharmacy"]
   ∧ remaining_locations
       (GopherDeliveries.blackboard
          (Hospital.next_cycle (Hospital.preempted_by ["ward_b"])))
     = Some ["ward_b"]
   ∧ (children <$>
        GopherDeliveries.delivery_sequence
          (Hospital.next_cycle (Hospital.preempted_by ["ward_b"])))
     = Some (Hospital.steps 101 ["ward_b"]))
  ∧ (GopherDeliveries.state c = State.WAITING
     ∧ check_locations (GopherDeliveries.planner c) ["ward_b"] = true
     ∧ traversed_locations (GopherDeliveries.blackboard c) = Some ["pharmacy"]
     ∧ ∃ c',
         (GopherDeliveries.pre_tick_update
            (GopherDeliveries.set_goal c (Some ["ward_b"]) false []).1
            "annex").2 = Ok c'
         ∧ GopherDeliveries.incoming_goal c' = None
         ∧ GopherDeliveries.root c' = GopherDeliveries.root c
         ∧ GopherDeliveries.blackboard c' = GopherDeliveries.blackboard c).
Proof.
  intros g c.
  assert (H1 : GopherDeliveries.state g = State.WAITING) by reflexivity.
  assert (H2 : ["ward_b"] ≠ ([] : list string)) by discriminate.
  assert (H3 : check_locations (GopherDeliveries.planner g) ["ward_b"] = true)
    by reflexivity.
  assert (H4 : traversed_locations (GopherDeliveries.blackboard g)
               = Some ["pharmacy"]) by reflexivity.
  assert (H5 : GopherDeliveries.state c = State.WAITING) by reflexivity.
  assert (H6 : check_locations (GopherDeliveries.planner c) ["ward_b"] = true)
    by reflexivity.
  assert (H7 : traversed_locations (GopherDeliveries.blackboard c)
               = Some ["pharmacy"]) by reflexivity.
  split.
  - split; [exact H1|]. split; [exact H2|]. split; [exact H3|].
    split; [exact H4|].
    destruct (C5_preemption_while_waiting g ["ward_b"] false [] "hospital"
                _ H1 H2 H3 H4)
      as (_ & _ & _ & _ & g' & Hrun & _ & Hcase).
    change (create_tree (GopherDeliveries.planner g)
              (current_location (GopherDeliveries.planner g)) "hospital"
              ["ward_b"] (no_root g && negb false) [])
      with (Some (Hospital.steps 101 ["ward_b"])) in Hcase.
    cbn [Hospital.steps] in Hcase.
    destruct Hcase as (_ & _ & _ & Hchildren & Hremaining & _).
    unfold Hospital.next_cycle, Hospital.preempted_by.
    fold g. rewrite Hrun. split; [exact Hremaining|exact Hchildren].
  - split; [exact H5|]. split; [exact H6|]. split; [exact H7|].
    destruct (C5_preemption_while_waiting c ["ward_b"] false [] "annex"
                _ H5 H2 H6 H7)
      as (_ & _ & _ & _ & c' & Hrun & Hcleared & Hcase).
    change (create_tree (GopherDeliveries.planner c)
              (current_location (GopherDeliveries.planner c)) "annex"
              ["ward_b"] (no_root c && negb false) [])
      with (@None (list Behaviour)) in Hcase.
    destruct Hcase as (_ & Hroot & _ & Hbb & _).
    exists c'. split; [exact Hrun|]. split; [exact Hcleared|].
    split; [exact Hroot|exact Hbb].
Defined.

(** C6 as stated fails.  At the pharmacy gate (traversed = [pharmacy]) goal
    [ward_b] preempts; [pre_tick_update] assembles its tree and keeps the
    traversed locations of the goal before, so right after assembly the
    union of remaining and traversed locations is {ward_b, pharmacy}, not the
    set of the goal's locations {ward_b}. *)
Lemma C6_counterexample :
  let g := Hospital.preempted_by ["ward_b"] in
  let g' := Hospital.next_cycle g in
  pending g = Some ["ward_b"]
  ∧ is_ok (GopherDeliveries.pre_tick_update g "hospital").2 = true
  ∧ GopherDeliveries.has_a_new_goal g' = true
  ∧ remaining_locations (GopherDeliveries.blackboard g') = Some ["ward_b"]
  ∧ traversed_locations (GopherDeliveries.blackboard g') = Some ["pharmacy"]
  ∧ list_to_set ["ward_b"] ∪ list_to_set ["pharmacy"]
    ≠@{gset string} list_to_set ["ward_b"].
Proof.
  repeat (split; [reflexivity|]). intros Heq.
  assert (Hin : "pharmacy" ∈@{gset string} list_to_set ["ward_b"])
    by (rewrite <- Heq; set_solver).
  set_solver.
Qed.

Lemma route_sets (before goal : list string) k :
  list_to_set (drop k goal) ∪ list_to_set (before ++ take k goal)
  =@{gset string} list_to_set goal ∪ list_to_set before.
Proof.
  rewrite <- (take_drop k goal) at 3.
  rewrite !list_to_set_app_L. apply set_eq. intros x.
  rewrite !elem_of_union. tauto.
Qed.

Lemma complete_legs_on_route before goal : ∀ k bb,
  traversed_locations bb = Some before →
  remaining_locations bb = Some goal →
  ∃ bb', complete_legs k bb = Ok bb'
         ∧ traversed_locations bb' = Some (before ++ take k goal)
         ∧ remaining_locations bb' = Some (drop k goal).
Proof.
  intros k. revert before goal.
  induction k as [|k IH]; intros before goal bb Ht Hr; cbn [complete_legs].
  { eexists. by rewrite take_0, drop_0, app_nil_r. }
  destruct goal as [|here rest].
  - unfold complete_leg. rewrite Ht, Hr. cbn.
    destruct (IH before [] bb Ht Hr) as (bb' & -> & Ht' & Hr').
    exists bb'. by rewrite take_nil, drop_nil in *.
  - rewrite (complete_leg_step _ _ _ _ Ht Hr), bind_Ok.
    edestruct (IH (before ++ [here]) rest) as (bb' & -> & Ht' & Hr');
      [reflexivity..|].
    exists bb'. split; [done|]. by rewrite <- app_assoc in Ht'.
Qed.

(** C6, amended.  Let [before] be empty when the tree of [goal] is assembled
    with no root in place, and the traversed locations of the goal before
    when it replaces a root.  Right after assembly the traversed locations
    are [before] and the remaining ones are [goal]; each completed leg
    removes exactly the head of the remaining locations and appends it to
    the traversed ones; so after [k] legs the traversed locations are
    [before] followed by the first [k] locations of [goal], the remaining
    ones are the rest of [goal], in the goal's order, and the union of the
    two sets is the set of the goal's locations together with those of
    [before] -- the goal's locations alone when there was no root.  The
    same holds after any number of cycles in which no goal is submitted. *)
Theorem C6_location_bookkeeping
    (g : GopherDeliveries.t) (world : string) (goal : list string)
    (d : Doors) (steps : list Behaviour) (before : list string)
    (Hpending : pending g = Some goal)
    (Hdoors : GopherDeliveries.doors g = Some d)
    (Hplanned :
       create_tree (GopherDeliveries.planner g)
         (current_location (GopherDeliveries.planner g)) world goal
         (GopherDeliveries.include_parking_behaviours g) d = Some steps)
    (Hsteps : steps ≠ [])
    (Hbefore :
       if GopherDeliveries.root g is Some _
       then traversed_locations (GopherDeliveries.blackboard g) = Some before
       else before = []) :
  ∃ g',
    (GopherDeliveries.pre_tick_update g world).2 = Ok g'
    ∧ traversed_locations (GopherDeliveries.blackboard g') = Some before
    ∧ remaining_locations (GopherDeliveries.blackboard g') = Some goal
    ∧ (∀ k, ∃ bb,
         complete_legs k (GopherDeliveries.blackboard g') = Ok bb
         ∧ traversed_locations bb = Some (before ++ take k goal)
         ∧ remaining_locations bb = Some (drop k goal)
         ∧ list_to_set (drop k goal) ∪ list_to_set (before ++ take k goal)
           =@{gset string} list_to_set goal ∪ list_to_set before
         ∧ (GopherDeliveries.root g = None →
            list_to_set (drop k goal) ∪ list_to_set (before ++ take k goal)
            =@{gset string} list_to_set goal))
    ∧ (∀ bb t here rest,
         traversed_locations bb = Some t →
         remaining_locations bb = Some (here :: rest) →
         complete_leg bb
         = Ok (set_remaining_locations rest
                 (set_traversed_locations (t ++ [here]) bb)))
    ∧ (∀ envs g'' traces,
         cycles world envs g' = Ok (g'', traces) →
         on_route before goal (GopherDeliveries.blackboard g'')).
Proof.
  rewrite (pre_tick_update_pending _ _ _ Hpending), Hdoors. cbn zeta.
  rewrite Hplanned. destruct steps as [|s1 steps]; [done|]. cbn [snd].
  assert (match GopherDeliveries.root g with
          | Some _ =>
              getattr "traversed_locations"
                (traversed_locations (GopherDeliveries.blackboard g))
          | None => Ok []
          end = Ok before) as ->.
  { destruct (GopherDeliveries.root g); [by rewrite Hbefore|by subst]. }
  rewrite bind_Ok. eexists. split; [reflexivity|].
  split; [reflexivity|]. split; [reflexivity|]. split; [|split].
  - intros k.
    edestruct (complete_legs_on_route before goal k) as (bb & Hk & Ht & Hr);
      [| |exists bb; split; [exact Hk|]]; [reflexivity..|].
    split; [done|]. split; [done|]. split; [apply route_sets|].
    intros Hnone. rewrite Hnone in Hbefore. subst before.
    rewrite route_sets. cbn. by rewrite (right_id_L ∅ (∪)).
  - intros. by apply complete_leg_step.
  - intros envs g'' traces Hrun.
    eapply cycles_on_route in Hrun as [_ Hroute]; [exact Hroute|done|].
    by apply on_route_start.
Qed.

(** An instance of C6: the first leg of the first goal. *)
Lemma C6_witness :
  let g := Hospital.accepted in
  pending g = Some Hospital.goal_a
  ∧ GopherDeliveries.doors g = Some []
  ∧ GopherDeliveries.root g = None
  ∧ ∃ bb,
      complete_legs 1
        (GopherDeliveries.blackboard (Hospital.next_cycle g)) = Ok bb
      ∧ traversed_locations bb = Some ["pharmacy"]
      ∧ remaining_locations bb = Some ["ward_a"].
Proof.
  intros g.
  assert (H1 : pending g = Some Hospital.goal_a) by reflexivity.
  assert (H2 : GopherDeliveries.doors g = Some []) by reflexivity.
  assert (H3 : create_tree (GopherDeliveries.planner g)
                 (current_location (GopherDeliveries.planner g))
                 "hospital" Hospital.goal_a
                 (GopherDeliveries.include_parking_behaviours g) []
               = Some (Hospital.steps 101 Hospital.goal_a)) by reflexivity.
  assert (H4 : Hospital.steps 101 Hospital.goal_a ≠ []) by discriminate.
  assert (H5 : if GopherDeliveries.root g is Some _
               then traversed_locations (GopherDeliveries.blackboard g)
                    = Some []
               else ([] : list string) = []) by reflexivity.
  split; [exact H1|]. split; [exact H2|]. split; [reflexivity|].
  destruct (C6_location_bookkeeping g "hospital" Hospital.goal_a [] _ []
              H1 H2 H3 H4 H5) as (g' & Hrun & _ & _ & Hlegs & _).
  destruct (Hlegs 1) as (bb & Hbb & Ht & Hr & _).
  exists bb. unfold Hospital.next_cycle. rewrite Hrun.
  split; [exact Hbb|]. split; [exact Ht|exact Hr].
Defined.

(** * Further properties of delivery.py *)

(** ** What the three methods leave alone *)

Lemma set_goal_frame (g : GopherDeliveries.t)
    (locations : option (list string)) (aai : bool) (d : Doors) :
  let g' := (GopherDeliveries.set_goal g locations aai d).1 in
  GopherDeliveries.state g' = GopherDeliveries.state g
  ∧ GopherDeliveries.root g' = GopherDeliveries.root g
  ∧ GopherDeliveries.blackboard g' = GopherDeliveries.blackboard g
  ∧ GopherDeliveries.planner g' = GopherDeliveries.planner g
  ∧ (g' = g ∨ is_Some (GopherDeliveries.doors g')).
Proof.
  destruct locations as [[|l ls]|]; cbn; [by auto 10| |by auto 10].
  destruct (GopherDeliveries.state g) eqn:Hs; cbn;
    try destruct (check_locations _ _); cbn; by eauto 10.
Qed.

Lemma pre_tick_update_frame (g g' : GopherDeliveries.t) (world : string) :
  (GopherDeliveries.pre_tick_update g world).2 = Ok g' →
  pending g' = None
  ∧ GopherDeliveries.state g' = GopherDeliveries.state g
  ∧ GopherDeliveries.feedback_message g' = GopherDeliveries.feedback_message g
  ∧ GopherDeliveries.doors g' = GopherDeliveries.doors g
  ∧ GopherDeliveries.always_assume_initialised g'
    = GopherDeliveries.always_assume_initialised g
  ∧ GopherDeliveries.config g' = GopherDeliveries.config g.
Proof.
  destruct (pending g) as [goal|] eqn:Hg.
  - rewrite (pre_tick_update_pending _ _ _ Hg).
    destruct (GopherDeliveries.doors g) as [d|] eqn:Hd; [|done]. cbn zeta.
    destruct (create_tree _ _ _ _ _ _) as [[|c cs]|]; cbn.
    + by intros [= <-].
    + destruct (GopherDeliveries.root g); cbn;
        [destruct (traversed_locations _); cbn|]; by intros [= <-].
    + by intros [= <-].
  - rewrite (pre_tick_update_idle _ _ Hg).
    destruct (GopherDeliveries.root g) as [r|]; [|by intros [= <-]].
    case_bool_decide; [|by intros [= <-]].
    destruct (traversed_locations _); cbn; by intros [= <-].
Qed.

(** [set_goal] assigns the goal when it answers SUCCESS and does nothing
    otherwise. *)
Lemma set_goal_outcome (g : GopherDeliveries.t)
    (locations : option (list string)) (aai : bool) (d : Doors) :
  (GopherDeliveries.set_goal g locations aai d).1
  = (if bool_decide ((GopherDeliveries.set_goal g locations aai d).2.1
                     = DeliveryErrorCodes.SUCCESS)
     then GopherDeliveries.assign_goal (default [] locations) aai d g
     else g).
Proof.
  destruct locations as [[|l ls]|]; cbn; [done| |done].
  destruct (GopherDeliveries.state g) eqn:Hs; cbn;
    try destruct (check_locations _ _); cbn; done.
Qed.

(** [post_tock_update] leaves the object alone or reports one of IDLE,
    WAITING and TRAVELLING. *)
Lemma post_tock_update_reports (g g' : GopherDeliveries.t) :
  GopherDeliveries.post_tock_update g = Ok g' →
  g' = g
  ∨ ∃ s m, g' = GopherDeliveries.report s m g ∧ s ≠ State.INVALID.
Proof.
  unfold GopherDeliveries.post_tock_update.
  destruct (GopherDeliveries.root g) as [r|];
    [|intros [= <-]; right; by eexists _, _].
  case_bool_decide; [|intros [= <-]; right; by eexists _, _].
  destruct (GopherDeliveries.delivery_sequence g) as [ds|]; [|done]. cbn.
  case_bool_decide; [|intros [= <-]; right; by eexists _, _].
  destruct (current_child ds) as [[w|n [| | |]|]|];
    try (intros [= <-]; by auto);
    try (intros [= <-]; right; by eexists _, _).
  destruct (traversed_locations _) as [t|]; [|done]. cbn.
  destruct (remaining_locations _) as [rm|]; [|done]. cbn.
  destruct (last t), (head rm);
    (done || intros [= <-]; right; by eexists _, _).
Qed.

(** ** Further properties of [set_goal] *)

(** X1.  The complete answer of [set_goal]: an absent or empty goal is
    GOAL_EMPTY_NOTHING_TO_DO in every state; otherwise IDLE answers by the
    planner's catalog (SUCCESS or FUBAR), WAITING answers SUCCESS and every
    other state ALREADY_ASSIGNED_A_GOAL.  The object changes exactly when
    the answer is SUCCESS, and then only in the pending goal,
    [always_assume_initialised] and [doors]. *)
Theorem X1_set_goal_decision_table
    (g : GopherDeliveries.t) (locations : option (list string))
    (aai : bool) (d : Doors) :
  let goal := default [] locations in
  let code := (GopherDeliveries.set_goal g locations aai d).2.1 in
  code
  = (if bool_decide (goal = []) then
       DeliveryErrorCodes.GOAL_EMPTY_NOTHING_TO_DO
     else if bool_decide (GopherDeliveries.state g = State.IDLE) then
       if check_locations (GopherDeliveries.planner g) goal
       then DeliveryErrorCodes.SUCCESS else DeliveryErrorCodes.FUBAR
     else if bool_decide (GopherDeliveries.state g = State.WAITING) then
       DeliveryErrorCodes.SUCCESS
     else DeliveryErrorCodes.ALREADY_ASSIGNED_A_GOAL)
  ∧ (GopherDeliveries.set_goal g locations aai d).1
    = (if bool_decide (code = DeliveryErrorCodes.SUCCESS)
       then GopherDeliveries.assign_goal goal aai d g else g)
  ∧ GopherDeliveries.root (GopherDeliveries.set_goal g locations aai d).1
    = GopherDeliveries.root g
  ∧ GopherDeliveries.state (GopherDeliveries.set_goal g locations aai d).1
    = GopherDeliveries.state g
  ∧ GopherDeliveries.blackboard
      (GopherDeliveries.set_goal g locations aai d).1
    = GopherDeliveries.blackboard g
  ∧ GopherDeliveries.planner (GopherDeliveries.set_goal g locations aai d).1
    = GopherDeliveries.planner g.
Proof.
  destruct locations as [[|l ls]|]; cbn; [done| |done].
  destruct (GopherDeliveries.state g) eqn:Hs; cbn;
    try destruct (check_locations _ _); cbn;
    repeat case_bool_decide; done.
Qed.

(** X2.  Goals submitted one after the other, with nothing in between: the
    second is answered as if the first had not been submitted, and the last
    accepted goal wins whole (locations, flag and doors); a rejected second
    goal leaves the first one pending. *)
Theorem X2_last_accepted_goal_wins
    (g : GopherDeliveries.t) (first second : option (list string))
    (aai1 aai2 : bool) (d1 d2 : Doors) :
  let g1 := (GopherDeliveries.set_goal g first aai1 d1).1 in
  (GopherDeliveries.set_goal g1 second aai2 d2).2
  = (GopherDeliveries.set_goal g second aai2 d2).2
  ∧ (GopherDeliveries.set_goal g1 second aai2 d2).1
    = (if bool_decide ((GopherDeliveries.set_goal g second aai2 d2).2.1
                       = DeliveryErrorCodes.SUCCESS)
       then (GopherDeliveries.set_goal g second aai2 d2).1
       else g1).
Proof.
  destruct (set_goal_frame g first aai1 d1) as (Hstate & _ & _ & Hplanner & _).
  pose proof (set_goal_outcome g first aai1 d1) as Hg1.
  cbn zeta in *.
  set (g1 := (GopherDeliveries.set_goal g first aai1 d1).1) in *.
  destruct second as [[|l ls]|]; cbn; [done| |done].
  rewrite Hstate, Hplanner.
  destruct (GopherDeliveries.state g) eqn:Hs; cbn; try done.
  - destruct (check_locations _ _); cbn; [|done]. split; [done|].
    rewrite Hg1. by case_bool_decide.
  - split; [done|]. rewrite Hg1. by case_bool_decide.
Qed.

(** ** Further properties of [pre_tick_update] *)

(** X3.  A [pre_tick_update] that returns has consumed the pending goal,
    whether the planner could decompose it or not: the next call does not
    reach the planner.  It never writes the state, the feedback message,
    [doors], [always_assume_initialised] or the configuration. *)
Theorem X3_pre_tick_update_consumes_goal
    (g g' : GopherDeliveries.t) (world : string)
    (Hreturns : (GopherDeliveries.pre_tick_update g world).2 = Ok g') :
  pending g' = None
  ∧ (∀ world',
       existsb is_create_tree
         (GopherDeliveries.pre_tick_update g' world').1 = false)
  ∧ GopherDeliveries.state g' = GopherDeliveries.state g
  ∧ GopherDeliveries.feedback_message g' = GopherDeliveries.feedback_message g
  ∧ GopherDeliveries.doors g' = GopherDeliveries.doors g
  ∧ GopherDeliveries.always_assume_initialised g'
    = GopherDeliveries.always_assume_initialised g
  ∧ GopherDeliveries.config g' = GopherDeliveries.config g.
Proof.
  assert (Hquiet : ∀ h world',
            pending h = None →
            existsb is_create_tree
              (GopherDeliveries.pre_tick_update h world').1 = false).
  { intros h world' Hh. rewrite (pre_tick_update_idle _ _ Hh).
    destruct (GopherDeliveries.root h) as [r|]; [|done].
    case_bool_decide; [|done]. by destruct (traversed_locations _). }
  assert (Hpending : pending g' = None
          ∧ GopherDeliveries.state g' = GopherDeliveries.state g
          ∧ GopherDeliveries.feedback_message g'
            = GopherDeliveries.feedback_message g
          ∧ GopherDeliveries.doors g' = GopherDeliveries.doors g
          ∧ GopherDeliveries.always_assume_initialised g'
            = GopherDeliveries.always_assume_initialised g
          ∧ GopherDeliveries.config g' = GopherDeliveries.config g).
  { revert Hreturns. destruct (pending g) as [goal|] eqn:Hg.
    - rewrite (pre_tick_update_pending _ _ _ Hg).
      destruct (GopherDeliveries.doors g) as [d|] eqn:Hd; [|done]. cbn zeta.
      destruct (create_tree _ _ _ _ _ _) as [[|c cs]|]; cbn.
      + by intros [= <-].
      + destruct (GopherDeliveries.root g); cbn;
          [destruct (traversed_locations _); cbn|]; by intros [= <-].
      + by intros [= <-].
    - rewrite (pre_tick_update_idle _ _ Hg).
      destruct (GopherDeliveries.root g) as [r|]; [|by intros [= <-]].
      case_bool_decide; [|by intros [= <-]].
      destruct (traversed_locations _); cbn; by intros [= <-]. }
  destruct Hpending as (Hp & ?). split; [done|]. split; [|done].
  intros world'. by apply Hquiet.
Qed.

(** An instance of X3: the first goal of the hospital run. *)
Lemma X3_witness :
  ∃ g',
    (GopherDeliveries.pre_tick_update Hospital.accepted "hospital").2 = Ok g'
    ∧ pending Hospital.accepted = Some Hospital.goal_a
    ∧ pending g' = None.
Proof.
  destruct (GopherDeliveries.pre_tick_update Hospital.accepted "hospital").2
    as [g'|] eqn:Hrun; [|discriminate Hrun].
  exists g'. split; [reflexivity|]. split; [reflexivity|].
  exact (proj1 (X3_pre_tick_update_consumes_goal
                  Hospital.accepted g' "hospital" Hrun)).
Defined.

(** X4.  [has_a_new_goal] is a sound change flag: when it is false after
    [pre_tick_update], the call has changed neither the root nor the
    blackboard, the planner, the recorded identifier of the old root or the
    identifier supply.  (Every replacement and every removal of the root sets
    the flag.) *)
Theorem X4_no_flag_no_change
    (g g' : GopherDeliveries.t) (world : string)
    (Hreturns : (GopherDeliveries.pre_tick_update g world).2 = Ok g')
    (Hflag : GopherDeliveries.has_a_new_goal g' = false) :
  GopherDeliveries.root g' = GopherDeliveries.root g
  ∧ GopherDeliveries.blackboard g' = GopherDeliveries.blackboard g
  ∧ GopherDeliveries.planner g' = GopherDeliveries.planner g
  ∧ GopherDeliveries.old_goal_id g' = GopherDeliveries.old_goal_id g
  ∧ GopherDeliveries.locations g' = GopherDeliveries.locations g
  ∧ GopherDeliveries.uuid g' = GopherDeliveries.uuid g.
Proof.
  revert Hreturns Hflag. destruct (pending g) as [goal|] eqn:Hg.
  - rewrite (pre_tick_update_pending _ _ _ Hg).
    destruct (GopherDeliveries.doors g) as [d|] eqn:Hd; [|done]. cbn zeta.
    destruct (create_tree _ _ _ _ _ _) as [[|c cs]|]; cbn.
    + by intros [= <-].
    + destruct (GopherDeliveries.root g); cbn;
        [destruct (traversed_locations _); cbn|]; by intros [= <-].
    + by intros [= <-].
  - rewrite (pre_tick_update_idle _ _ Hg).
    destruct (GopherDeliveries.root g) as [r|] eqn:Hr; [|by intros [= <-]].
    case_bool_decide; [|by intros [= <-]].
    destruct (traversed_locations _); cbn; by intros [= <-].
Qed.

(** An instance of X4: a cycle on the way to the pharmacy. *)
Lemma X4_witness :
  ∃ g',
    (GopherDeliveries.pre_tick_update Hospital.travelling "hospital").2 = Ok g'
    ∧ GopherDeliveries.has_a_new_goal g' = false
    ∧ GopherDeliveries.root g' = GopherDeliveries.root Hospital.travelling.
Proof.
  destruct (GopherDeliveries.pre_tick_update Hospital.travelling "hospital").2
    as [g'|] eqn:Hrun; [|discriminate Hrun].
  assert (Hflag : GopherDeliveries.has_a_new_goal g' = false).
  { injection Hrun as <-. reflexivity. }
  exists g'. split; [reflexivity|]. split; [exact Hflag|].
  exact (proj1 (X4_no_flag_no_change Hospital.travelling g' "hospital"
                  Hrun Hflag)).
Defined.

(** X5.  With no goal pending, a root that succeeded on the last tick is
    dropped by [pre_tick_update]: the planner's current location becomes the
    last traversed location ([None] if nothing was traversed), the root's
    identifier is recorded, and [has_a_new_goal] is set.  The flag lasts one
    call: the next [pre_tick_update] does nothing but clear it. *)
Theorem X5_succeeded_root_is_dropped_once
    (g : GopherDeliveries.t) (world : string) (r : Behaviour)
    (t : list string)
    (Hno_goal : pending g = None)
    (Hroot : GopherDeliveries.root g = Some r)
    (Hsucceeded : GopherDeliveries.succeeded_on_last_tick g = true)
    (Htraversed :
       traversed_locations (GopherDeliveries.blackboard g) = Some t) :
  ∃ g1,
    GopherDeliveries.pre_tick_update g world
    = ([SetCurrentLocation (last t)], Ok g1)
    ∧ GopherDeliveries.root g1 = None
    ∧ GopherDeliveries.has_a_new_goal g1 = true
    ∧ GopherDeliveries.old_goal_id g1 = Some (Node.id (node r))
    ∧ current_location (GopherDeliveries.planner g1) = last t
    ∧ GopherDeliveries.blackboard g1 = GopherDeliveries.blackboard g
    ∧ GopherDeliveries.succeeded_on_last_tick g1 = false
    ∧ ∀ world', ∃ g2,
        GopherDeliveries.pre_tick_update g1 world' = ([], Ok g2)
        ∧ GopherDeliveries.has_a_new_goal g2 = false
        ∧ GopherDeliveries.root g2 = None
        ∧ GopherDeliveries.old_goal_id g2 = Some (Node.id (node r))
        ∧ GopherDeliveries.planner g2 = GopherDeliveries.planner g1.
Proof.
  unfold GopherDeliveries.succeeded_on_last_tick in Hsucceeded.
  rewrite Hroot in Hsucceeded.
  rewrite (pre_tick_update_idle _ _ Hno_goal), Hroot, Hsucceeded, Htraversed.
  cbn [getattr]. eexists. split; [reflexivity|].
  repeat (split; [reflexivity|]).
  intros world'. eexists. rewrite pre_tick_update_idle; [|exact Hno_goal].
  cbn [GopherDeliveries.root]. split; [reflexivity|]. done.
Qed.

(** An instance of X5: the cancel button ends the hospital run, and the
    root, which succeeded, is dropped. *)
Lemma X5_witness :
  let g := Hospital.reached
             (cycles "hospital" [Hospital.all_succeed] Hospital.accepted) in
  pending g = None
  ∧ GopherDeliveries.succeeded_on_last_tick g = true
  ∧ ∃ g1,
      GopherDeliveries.pre_tick_update g "hospital"
      = ([SetCurrentLocation None], Ok g1)
      ∧ GopherDeliveries.root g1 = None.
Proof.
  intros g.
  assert (H1 : pending g = None) by reflexivity.
  destruct (GopherDeliveries.root g) as [r|] eqn:Hr; [|discriminate Hr].
  assert (H2 : GopherDeliveries.succeeded_on_last_tick g = true)
    by reflexivity.
  assert (H3 : traversed_locations (GopherDeliveries.blackboard g) = Some [])
    by reflexivity.
  split; [exact H1|]. split; [exact H2|].
  destruct (X5_succeeded_root_is_dropped_once g "hospital" r [] H1 Hr H2 H3)
    as (g1 & Hrun & Hnone & _).
  exists g1. split; [exact Hrun|exact Hnone].
Defined.

(** X6.  After a delivery has succeeded it matters whether the next goal is
    submitted before or after the [pre_tick_update] that drops the root.
    Submitted before, the goal's tree replaces the succeeded root: the
    planner is asked without parking behaviours and with its old current
    location, the traversed locations of the finished goal are kept, and the
    old root's identifier is recorded.  Submitted after, the tree is built
    with no root in place: the planner is asked with parking behaviours
    unless the robot is assumed initialised and with the last traversed
    location as its current location, the traversed locations start empty,
    and the recorded identifier of the old root is overwritten by [None]. *)
Theorem X6_goal_before_or_after_the_drop
    (g : GopherDeliveries.t) (world : string) (r : Behaviour)
    (t goal : list string) (aai : bool) (d : Doors)
    (steps_before steps_after : list Behaviour)
    (Hidle : GopherDeliveries.state g = State.IDLE)
    (Hno_goal : pending g = None)
    (Hroot : GopherDeliveries.root g = Some r)
    (Hsucceeded : GopherDeliveries.succeeded_on_last_tick g = true)
    (Htraversed :
       traversed_locations (GopherDeliveries.blackboard g) = Some t)
    (Hgoal : goal ≠ [])
    (Hknown : check_locations (GopherDeliveries.planner g) goal = true)
    (Hbefore :
       create_tree (GopherDeliveries.planner g)
         (current_location (GopherDeliveries.planner g)) world goal false d
       = Some steps_before)
    (Hsteps_before : steps_before ≠ [])
    (Hafter :
       create_tree (GopherDeliveries.planner g) (last t) world goal
         (negb aai) d = Some steps_after)
    (Hsteps_after : steps_after ≠ []) :
  (∃ g',
     GopherDeliveries.pre_tick_update
       (GopherDeliveries.set_goal g (Some goal) aai d).1 world
     = ([CreateTree world goal false d], Ok g')
     ∧ GopherDeliveries.root g'
       = Some (GopherDeliveries.new_root (GopherDeliveries.config g)
                 (GopherDeliveries.uuid g) steps_before)
     ∧ traversed_locations (GopherDeliveries.blackboard g') = Some t
     ∧ GopherDeliveries.planner g' = GopherDeliveries.planner g
     ∧ GopherDeliveries.old_goal_id g' = Some (Node.id (node r)))
  ∧ (∃ g1 g',
       GopherDeliveries.pre_tick_update g world
       = ([SetCurrentLocation (last t)], Ok g1)
       ∧ GopherDeliveries.pre_tick_update
           (GopherDeliveries.set_goal g1 (Some goal) aai d).1 world
         = ([CreateTree world goal (negb aai) d], Ok g')
       ∧ GopherDeliveries.root g'
         = Some (GopherDeliveries.new_root (GopherDeliveries.config g)
                   (GopherDeliveries.uuid g) steps_after)
       ∧ traversed_locations (GopherDeliveries.blackboard g') = Some []
       ∧ current_location (GopherDeliveries.planner g') = last t
       ∧ GopherDeliveries.old_goal_id g' = None).
Proof.
  split.
  - rewrite (set_goal_idle _ _ _ _ Hidle Hgoal), Hknown. cbn [fst].
    set (g1 := GopherDeliveries.assign_goal goal aai d g).
    assert (Hp : pending g1 = Some goal) by by apply pending_Some.
    rewrite (pre_tick_update_pending _ _ _ Hp).
    replace (GopherDeliveries.include_parking_behaviours g1) with false.
    2:{ rewrite include_parking_behaviours_spec. unfold no_root.
        subst g1. cbn. by rewrite Hroot. }
    subst g1. unfold GopherDeliveries.assign_goal.
    cbn [GopherDeliveries.doors GopherDeliveries.planner GopherDeliveries.root
         GopherDeliveries.blackboard GopherDeliveries.config
         GopherDeliveries.uuid].
    cbn zeta. rewrite Hbefore. destruct steps_before as [|s1 ss]; [done|].
    rewrite Hroot, Htraversed. cbn [getattr]. rewrite bind_Ok.
    eexists. split; [reflexivity|]. done.
  - unfold GopherDeliveries.succeeded_on_last_tick in Hsucceeded.
    rewrite Hroot in Hsucceeded.
    eexists _, _. split.
    { rewrite (pre_tick_update_idle _ _ Hno_goal), Hroot, Hsucceeded,
        Htraversed. reflexivity. }
    rewrite set_goal_idle; [|exact Hidle|exact Hgoal].
    cbn [GopherDeliveries.planner check_locations set_current_location].
    rewrite Hknown. cbn [fst].
    match goal with
    | |- context [GopherDeliveries.assign_goal goal aai d ?h] =>
        set (g1 := GopherDeliveries.assign_goal goal aai d h)
    end.
    assert (Hp : pending g1 = Some goal) by by apply pending_Some.
    rewrite (pre_tick_update_pending _ _ _ Hp).
    replace (GopherDeliveries.include_parking_behaviours g1) with (negb aai)
      by by rewrite include_parking_behaviours_spec.
    subst g1. unfold GopherDeliveries.assign_goal.
    cbn [GopherDeliveries.doors GopherDeliveries.planner GopherDeliveries.root
         GopherDeliveries.blackboard GopherDeliveries.config
         GopherDeliveries.uuid create_tree current_location
         set_current_location].
    cbn zeta. rewrite Hafter. destruct steps_after as [|s1 ss]; [done|].
    rewrite bind_Ok. split; [reflexivity|]. done.
Qed.

(** An instance of X6: goal [ward_b] after the cancelled hospital run. *)
Lemma X6_witness :
  let g := Hospital.reached
             (cycles "hospital" [Hospital.all_succeed] Hospital.accepted) in
  GopherDeliveries.state g = State.IDLE
  ∧ GopherDeliveries.succeeded_on_last_tick g = true
  ∧ (∃ g',
       GopherDeliveries.pre_tick_update
         (GopherDeliveries.set_goal g (Some ["ward_b"]) false []).1 "hospital"
       = ([CreateTree "hospital" ["ward_b"] false []], Ok g'))
  ∧ ∃ g1 g',
      GopherDeliveries.pre_tick_update g "hospital"
      = ([SetCurrentLocation None], Ok g1)
      ∧ GopherDeliveries.pre_tick_update
          (GopherDeliveries.set_goal g1 (Some ["ward_b"]) false []).1
          "hospital"
        = ([CreateTree "hospital" ["ward_b"] true []], Ok g').
Proof.
  intros g.
  assert (H1 : GopherDeliveries.state g = State.IDLE) by reflexivity.
  assert (H2 : pending g = None) by reflexivity.
  destruct (GopherDeliveries.root g) as [r|] eqn:Hr; [|discriminate Hr].
  assert (H3 : GopherDeliveries.succeeded_on_last_tick g = true)
    by reflexivity.
  assert (H4 : traversed_locations (GopherDeliveries.blackboard g) = Some [])
    by reflexivity.
  assert (H5 : ["ward_b"] ≠ ([] : list string)) by discriminate.
  assert (H6 : check_locations (GopherDeliveries.planner g) ["ward_b"] = true)
    by reflexivity.
  assert (H7 : create_tree (GopherDeliveries.planner g)
                 (current_location (GopherDeliveries.planner g)) "hospital"
                 ["ward_b"] false []
               = Some (Hospital.steps 101 ["ward_b"])) by reflexivity.
  assert (H8 : Hospital.steps 101 ["ward_b"] ≠ []) by discriminate.
  assert (H9 : create_tree (GopherDeliveries.planner g) (last [])
                 "hospital" ["ward_b"] (negb false) []
               = Some (Leaf (Node.new 100 "unpark") Step
                       :: Hospital.steps 101 ["ward_b"])) by reflexivity.
  assert (H10 : Leaf (Node.new 100 "unpark") Step
                :: Hospital.steps 101 ["ward_b"] ≠ []) by discriminate.
  split; [exact H1|]. split; [exact H3|].
  destruct (X6_goal_before_or_after_the_drop g "hospital" r [] ["ward_b"]
              false [] _ _ H1 H2 Hr H3 H4 H5 H6 H7 H8 H9 H10)
    as [(g' & Hearly & _) (g1 & g'' & Hdrop & Hlate & _)].
  split; [exists g'; exact Hearly|].
  exists g1, g''. split; [exact Hdrop|exact Hlate].
Defined.

(** ** Histories *)

(** A property every call keeps is kept by every history. *)
Lemma calls_invariant (P : GopherDeliveries.t → Prop) :
  (∀ g c g', P g → call g c = Ok g' → P g') →
  ∀ cs g g', P g → calls g cs = Ok g' → P g'.
Proof.
  intros Hstep. induction cs as [|c cs IH]; intros g g' Hg; cbn [calls].
  { by intros [= <-]. }
  destruct (call g c) as [g1|] eqn:Hc; [|done]. rewrite bind_Ok.
  apply IH. by eapply Hstep.
Qed.

Lemma call_state_not_invalid (g : GopherDeliveries.t) (c : Call)
    (g' : GopherDeliveries.t) :
  GopherDeliveries.state g ≠ State.INVALID →
  call g c = Ok g' →
  GopherDeliveries.state g' ≠ State.INVALID.
Proof.
  intros Hg. destruct c as [locations aai d|world|bb r|]; cbn [call].
  - intros [= <-].
    by destruct (set_goal_frame g locations aai d) as (-> & _).
  - intros Hrun. by destruct (pre_tick_update_frame _ _ _ Hrun) as (_ & -> & _).
  - by intros [= <-].
  - intros [->|(s & m & -> & Hs)]%post_tock_update_reports; done.
Qed.

(** X7.  The state INVALID is never entered: after any history of
    [set_goal], [pre_tick_update], ticks and [post_tock_update] on a new
    delivery system, with or without preload, the state is IDLE, WAITING or
    TRAVELLING.  So the last branch of [set_goal] is taken only while
    TRAVELLING: whenever a goal is answered ALREADY_ASSIGNED_A_GOAL, the
    robot is travelling. *)
Theorem X7_state_is_never_invalid
    (bb : Blackboard) (cfg : Configuration) (uuid0 : nat) (name : string)
    (planner : Planner) (semantic_locations : option (list Location))
    (history : list Call) (g : GopherDeliveries.t)
    (Hhistory :
       calls (GopherDeliveries.__init__ bb cfg uuid0 name planner
                semantic_locations) history = Ok g) :
  GopherDeliveries.state g ≠ State.INVALID
  ∧ ∀ locations aai d,
      (GopherDeliveries.set_goal g locations aai d).2.1
      = DeliveryErrorCodes.ALREADY_ASSIGNED_A_GOAL →
      GopherDeliveries.state g = State.TRAVELLING.
Proof.
  assert (Hstate : GopherDeliveries.state g ≠ State.INVALID).
  { eapply (calls_invariant _ call_state_not_invalid); [|exact Hhistory].
    cbn. discriminate. }
  split; [exact Hstate|]. intros [[|l ls]|] aai d; cbn; [done| |done].
  destruct (GopherDeliveries.state g); cbn; try done.
  by destruct (check_locations _ _).
Qed.

(** An instance of X7: a goal, a cycle on the way, a second goal. *)
Lemma X7_witness :
  ∃ g,
    calls Hospital.fresh
      [SetGoal (Some Hospital.goal_a) true []; PreTickUpdate "hospital";
       PostTockUpdate; SetGoal (Some ["ward_b"]) true []] = Ok g
    ∧ GopherDeliveries.state g ≠ State.INVALID.
Proof.
  destruct (calls Hospital.fresh
              [SetGoal (Some Hospital.goal_a) true [];
               PreTickUpdate "hospital"; PostTockUpdate;
               SetGoal (Some ["ward_b"]) true []]) as [g|] eqn:Hrun;
    [|discriminate Hrun].
  exists g. split; [reflexivity|].
  exact (proj1 (X7_state_is_never_invalid Hospital.empty_blackboard
                  Hospital.cfg 0 "deliveries" Hospital.planner None _ g Hrun)).
Defined.

Lemma call_doors_with_goal (g : GopherDeliveries.t) (c : Call)
    (g' : GopherDeliveries.t) :
  (pending g = None ∨ is_Some (GopherDeliveries.doors g)) →
  call g c = Ok g' →
  pending g' = None ∨ is_Some (GopherDeliveries.doors g').
Proof.
  intros Hg. destruct c as [locations aai d|world|bb r|]; cbn [call].
  - intros [= <-].
    by destruct (set_goal_frame g locations aai d)
      as (_ & _ & _ & _ & [->|?]); [|right].
  - intros Hrun. left. by destruct (pre_tick_update_frame _ _ _ Hrun).
  - by intros [= <-].
  - by intros [->|(s & m & -> & Hs)]%post_tock_update_reports.
Qed.

(** X8.  A delivery system constructed without a preload never fails on
    [doors]: after any history of calls, either no goal is pending or
    [doors] has been assigned, so [pre_tick_update] does not raise
    AttributeError on [doors]. *)
Theorem X8_doors_assigned_with_every_goal
    (bb : Blackboard) (cfg : Configuration) (uuid0 : nat) (name : string)
    (planner : Planner) (history : list Call) (g : GopherDeliveries.t)
    (world : string)
    (Hhistory :
       calls (GopherDeliveries.__init__ bb cfg uuid0 name planner None)
         history = Ok g) :
  (pending g = None ∨ is_Some (GopherDeliveries.doors g))
  ∧ (GopherDeliveries.pre_tick_update g world).2
    ≠ Raise (AttributeError "doors").
Proof.
  assert (Hg : pending g = None ∨ is_Some (GopherDeliveries.doors g)).
  { eapply (calls_invariant _ call_doors_with_goal); [|exact Hhistory].
    by left. }
  split; [exact Hg|].
  destruct (pending g) as [goal|] eqn:Hp.
  - destruct Hg as [|[d Hd]]; [done|].
    rewrite (pre_tick_update_pending _ _ _ Hp), Hd. cbn zeta.
    destruct (create_tree _ _ _ _ _ _) as [[|c cs]|]; cbn; [done| |done].
    destruct (GopherDeliveries.root g); [|done].
    by destruct (traversed_locations _).
  - rewrite (pre_tick_update_idle _ _ Hp).
    destruct (GopherDeliveries.root g) as [r|]; [|done].
    case_bool_decide; [|done]. by destruct (traversed_locations _).
Qed.

(** An instance of X8: the same history. *)
Lemma X8_witness :
  ∃ g,
    calls Hospital.fresh
      [SetGoal (Some Hospital.goal_a) true []; PreTickUpdate "hospital";
       PostTockUpdate; SetGoal (Some ["ward_b"]) true []] = Ok g
    ∧ (GopherDeliveries.pre_tick_update g "hospital").2
      ≠ Raise (AttributeError "doors").
Proof.
  destruct (calls Hospital.fresh
              [SetGoal (Some Hospital.goal_a) true [];
               PreTickUpdate "hospital"; PostTockUpdate;
               SetGoal (Some ["ward_b"]) true []]) as [g|] eqn:Hrun;
    [|discriminate Hrun].
  exists g. split; [reflexivity|].
  exact (proj2 (X8_doors_assigned_with_every_goal Hospital.empty_blackboard
                  Hospital.cfg 0 "deliveries" Hospital.planner _ g "hospital"
                  Hrun)).
Defined.

(** ** Further properties of [post_tock_update] *)

(** [post_tock_update] writes what [classification] decides. *)
Lemma post_tock_update_classification (g : GopherDeliveries.t) :
  GopherDeliveries.post_tock_update g
  = (c ← classification g; Ok (classified c g)).
Proof.
  unfold GopherDeliveries.post_tock_update, classification.
  destruct (GopherDeliveries.root g) as [r|]; [|done].
  case_bool_decide; [|done].
  destruct (GopherDeliveries.delivery_sequence g) as [ds|]; [|done].
  cbn [getattr]. rewrite !bind_Ok. case_bool_decide; [|done].
  destruct (current_child ds) as [[w|n [| | |]|n k cur cs]|]; try done.
  destruct (traversed_locations _) as [t|]; [|done].
  cbn [getattr]. rewrite !bind_Ok.
  destruct (remaining_locations _) as [rm|]; [|done].
  cbn [getattr]. rewrite !bind_Ok.
  by destruct (last t), (head rm).
Qed.

(** X9.  [post_tock_update] classifies the tree and nothing else: it writes
    only the state and the feedback message, and calling it again without a
    tick in between changes nothing more. *)
Theorem X9_post_tock_update_idempotent
    (g g' : GopherDeliveries.t)
    (Hreturns : GopherDeliveries.post_tock_update g = Ok g') :
  GopherDeliveries.post_tock_update g' = Ok g'
  ∧ GopherDeliveries.root g' = GopherDeliveries.root g
  ∧ GopherDeliveries.blackboard g' = GopherDeliveries.blackboard g
  ∧ GopherDeliveries.incoming_goal g' = GopherDeliveries.incoming_goal g
  ∧ GopherDeliveries.doors g' = GopherDeliveries.doors g
  ∧ GopherDeliveries.planner g' = GopherDeliveries.planner g
  ∧ GopherDeliveries.has_a_new_goal g' = GopherDeliveries.has_a_new_goal g
  ∧ GopherDeliveries.old_goal_id g' = GopherDeliveries.old_goal_id g.
Proof.
  rewrite post_tock_update_classification in Hreturns.
  destruct (classification g) as [c|] eqn:Hc; [|done].
  rewrite bind_Ok in Hreturns. injection Hreturns as <-.
  split; [|by destruct c as [[s m]|]].
  rewrite post_tock_update_classification.
  replace (classification (classified c g)) with (classification g)
    by by destruct c as [[s m]|].
  rewrite Hc, bind_Ok. by destruct c as [[s m]|].
Qed.

(** An instance of X9: the robot waiting at the pharmacy. *)
Lemma X9_witness :
  GopherDeliveries.post_tock_update Hospital.waiting_at_pharmacy
  = Ok Hospital.waiting_at_pharmacy.
Proof.
  destruct (GopherDeliveries.post_tock_update Hospital.waiting_at_pharmacy)
    as [g'|] eqn:Hrun; [|discriminate Hrun].
  pose proof (proj1 (X9_post_tock_update_idempotent _ _ Hrun)) as Hagain.
  injection Hrun as <-. exact Hagain.
Defined.

(** X10.  After [post_tock_update] the robot counts as executing only while
    a root exists and is RUNNING, and even then the state may be the one of
    an earlier classification, never INVALID by this call.  Without a root,
    or with a root that is not RUNNING -- in particular one that succeeded on
    the last tick -- the state is IDLE, the message "idling", and
    [is_executing] is false; [succeeded_on_last_tick] is not affected. *)
Theorem X10_executing_needs_running_root
    (g g' : GopherDeliveries.t)
    (Hreturns : GopherDeliveries.post_tock_update g = Ok g') :
  (GopherDeliveries.is_executing g' = true →
   ∃ r, GopherDeliveries.root g = Some r
        ∧ Node.status (node r) = Status.RUNNING)
  ∧ ((∀ r, GopherDeliveries.root g = Some r →
           Node.status (node r) ≠ Status.RUNNING) →
     GopherDeliveries.state g' = State.IDLE
     ∧ GopherDeliveries.feedback_message g' = "idling"
     ∧ GopherDeliveries.is_executing g' = false)
  ∧ (GopherDeliveries.succeeded_on_last_tick g = true →
     GopherDeliveries.state g' = State.IDLE
     ∧ GopherDeliveries.is_executing g' = false)
  ∧ GopherDeliveries.succeeded_on_last_tick g'
    = GopherDeliveries.succeeded_on_last_tick g.
Proof.
  rewrite post_tock_update_classification in Hreturns.
  assert (Hidle : (∀ r, GopherDeliveries.root g = Some r →
                        Node.status (node r) ≠ Status.RUNNING) →
                  classification g = Ok (Some (State.IDLE, "idling"))).
  { intros Hnot. unfold classification.
    destruct (GopherDeliveries.root g) as [r|]; [|done].
    by rewrite bool_decide_eq_false_2 by by apply Hnot. }
  assert (Hrunning : (∃ r, GopherDeliveries.root g = Some r
                           ∧ Node.status (node r) = Status.RUNNING)
                     ∨ classification g = Ok (Some (State.IDLE, "idling"))).
  { unfold classification.
    destruct (GopherDeliveries.root g) as [r|]; [|by right].
    case_bool_decide; [left; by exists r|by right]. }
  split; [|split; [|split]].
  - destruct Hrunning as [?|Hc]; [done|].
    rewrite Hc, bind_Ok in Hreturns. by injection Hreturns as <-.
  - intros Hc%Hidle. rewrite Hc, bind_Ok in Hreturns.
    by injection Hreturns as <-.
  - unfold GopherDeliveries.succeeded_on_last_tick.
    destruct (GopherDeliveries.root g) as [r|] eqn:Hr; [|done].
    intros Hs%bool_decide_eq_true. rewrite Hidle, bind_Ok in Hreturns.
    + by injection Hreturns as <-.
    + intros r' [= <-]. by rewrite Hs.
  - destruct (classification g) as [c|]; [|done].
    rewrite bind_Ok in Hreturns. injection Hreturns as <-.
    by destruct c as [[s m]|].
Qed.

(** An instance of X10: the cancelled hospital run, root succeeded. *)
Lemma X10_witness :
  let g := Hospital.reached
             (cycles "hospital" [Hospital.all_succeed] Hospital.accepted) in
  GopherDeliveries.succeeded_on_last_tick g = true
  ∧ ∃ g', GopherDeliveries.post_tock_update g = Ok g'
          ∧ GopherDeliveries.is_executing g' = false.
Proof.
  intros g.
  assert (H1 : GopherDeliveries.succeeded_on_last_tick g = true)
    by reflexivity.
  split; [exact H1|].
  destruct (GopherDeliveries.post_tock_update g) as [g'|] eqn:Hrun;
    [|discriminate Hrun].
  exists g'. split; [reflexivity|].
  destruct (X10_executing_needs_running_root g g' Hrun) as (_ & _ & Hs & _).
  exact (proj2 (Hs H1)).
Defined.

(** X11.  While the delivery sequence is RUNNING on a travel leaf,
    [post_tock_update] reports TRAVELLING towards the first remaining
    location: "moving from 'a' to 'b'" with [a] the last traversed location,
    or "moving to 'b'" when nothing has been traversed yet.  With no
    remaining location left it raises IndexError. *)
Theorem X11_travelling_feedback
    (g : GopherDeliveries.t) (r ds : Behaviour) (n : Node.t)
    (t rm : list string)
    (Hroot : GopherDeliveries.root g = Some r)
    (Hrunning : Node.status (node r) = Status.RUNNING)
    (Hsequence : GopherDeliveries.delivery_sequence g = Some ds)
    (Hdelivering : Node.status (node ds) = Status.RUNNING)
    (Hchild : current_child ds = Some (Leaf n MoveToGoal))
    (Htraversed :
       traversed_locations (GopherDeliveries.blackboard g) = Some t)
    (Hremaining :
       remaining_locations (GopherDeliveries.blackboard g) = Some rm) :
  GopherDeliveries.post_tock_update g
  = match rm with
    | [] => Raise IndexError
    | to :: _ =>
        Ok (GopherDeliveries.report State.TRAVELLING
              (match last t with
               | Some from =>
                   "moving from '" +:+ from +:+ "' to '" +:+ to +:+ "'"
               | None => "moving to '" +:+ to +:+ "'"
               end) g)
    end.
Proof.
  unfold GopherDeliveries.post_tock_update.
  rewrite Hroot, Hsequence, Htraversed, Hremaining.
  rewrite bool_decide_eq_true_2 by done. cbn [getattr]. rewrite bind_Ok.
  rewrite bool_decide_eq_true_2 by done. rewrite Hchild, !bind_Ok.
  by destruct rm, (last t).
Qed.

(** An instance of X11: on the way to the pharmacy. *)
Lemma X11_witness :
  GopherDeliveries.post_tock_update Hospital.travelling
  = Ok (GopherDeliveries.report State.TRAVELLING "moving to 'pharmacy'"
          Hospital.travelling).
Proof.
  set (g := Hospital.travelling).
  destruct (GopherDeliveries.root g) as [r|] eqn:Hr; [|discriminate Hr].
  destruct (GopherDeliveries.delivery_sequence g) as [ds|] eqn:Hds;
    [|discriminate Hds].
  assert (H1 : Node.status (node r) = Status.RUNNING).
  { injection Hr as <-. reflexivity. }
  assert (H2 : Node.status (node ds) = Status.RUNNING).
  { injection Hds as <-. reflexivity. }
  assert (H3 : current_child ds
               = Some (Leaf (Node.set_status Status.RUNNING
                               (Node.new 101 "to pharmacy")) MoveToGoal)).
  { injection Hds as <-. reflexivity. }
  assert (H4 : traversed_locations (GopherDeliveries.blackboard g) = Some [])
    by reflexivity.
  assert (H5 : remaining_locations (GopherDeliveries.blackboard g)
               = Some ["pharmacy"; "ward_a"]) by reflexivity.
  exact (X11_travelling_feedback g r ds _ [] _ Hr H1 Hds H2 H3 H4 H5).
Defined.

(** X12.  While the delivery sequence is RUNNING on a [Waiting] gate,
    [post_tock_update] reports WAITING with the gate's own feedback message.
    While it is RUNNING on a step that is neither a travel leaf nor a gate
    (or on no step yet), [post_tock_update] changes nothing at all: state
    and message stay what the last classification made them, so a robot
    busy with such a step right after assembly still counts as IDLE. *)
Theorem X12_gate_and_other_steps
    (g : GopherDeliveries.t) (r ds : Behaviour)
    (Hroot : GopherDeliveries.root g = Some r)
    (Hrunning : Node.status (node r) = Status.RUNNING)
    (Hsequence : GopherDeliveries.delivery_sequence g = Some ds)
    (Hdelivering : Node.status (node ds) = Status.RUNNING) :
  (∀ w, current_child ds = Some (Gate w) →
        GopherDeliveries.post_tock_update g
        = Ok (GopherDeliveries.report State.WAITING
                (Waiting.feedback_message w) g))
  ∧ ((∀ w, current_child ds ≠ Some (Gate w)) →
     (∀ n, current_child ds ≠ Some (Leaf n MoveToGoal)) →
     GopherDeliveries.post_tock_update g = Ok g).
Proof.
  assert (Hpost : GopherDeliveries.post_tock_update g
                  = match current_child ds with
                    | Some (Gate w) =>
                        Ok (GopherDeliveries.report State.WAITING
                              (Waiting.feedback_message w) g)
                    | Some (Leaf _ MoveToGoal) =>
                        GopherDeliveries.post_tock_update g
                    | _ => Ok g
                    end).
  { destruct (current_child ds) as [[w|n k|n k cur cs]|] eqn:Hchild;
      try (destruct k; [done|..]);
      unfold GopherDeliveries.post_tock_update;
      rewrite Hroot, Hsequence; rewrite bool_decide_eq_true_2 by done;
      cbn [getattr]; rewrite bind_Ok; rewrite bool_decide_eq_true_2 by done;
      by rewrite Hchild. }
  split.
  - intros w Hw. by rewrite Hpost, Hw.
  - intros Hgate Htravel. rewrite Hpost.
    destruct (current_child ds) as [[w|n k|n k cur cs]|]; try done.
    + by destruct (Hgate w).
    + destruct k; try done. by destruct (Htravel n).
Qed.

(** An instance of X12: the first goal submitted without assuming the robot
    initialised; while the robot unparks, the state is still IDLE. *)
Lemma X12_witness :
  let g :=
    Hospital.reached
      (cycles "hospital" [Hospital.on_the_way]
         (GopherDeliveries.set_goal Hospital.fresh (Some Hospital.goal_a)
            false []).1) in
  GopherDeliveries.succeeded_on_last_tick g = false
  ∧ GopherDeliveries.post_tock_update g = Ok g
  ∧ GopherDeliveries.state g = State.IDLE.
Proof.
  intros g.
  destruct (GopherDeliveries.root g) as [r|] eqn:Hr; [|discriminate Hr].
  destruct (GopherDeliveries.delivery_sequence g) as [ds|] eqn:Hds;
    [|discriminate Hds].
  assert (H1 : Node.status (node r) = Status.RUNNING).
  { injection Hr as <-. reflexivity. }
  assert (H2 : Node.status (node ds) = Status.RUNNING).
  { injection Hds as <-. reflexivity. }
  assert (H3 : ∀ w, current_child ds ≠ Some (Gate w)).
  { injection Hds as <-. discriminate. }
  assert (H4 : ∀ n, current_child ds ≠ Some (Leaf n MoveToGoal)).
  { injection Hds as <-. discriminate. }
  split; [reflexivity|]. split; [|reflexivity].
  exact (proj2 (X12_gate_and_other_steps g r ds Hr H1 Hds H2) H3 H4).
Defined.

(** ** Further properties of the [Waiting] gate *)


(** X14.  A go signal that arrives while the gate is RUNNING is kept: the
    latch is set, and it stays set through any number of further updates
    and status writes by the engine, so every later [update] returns
    SUCCESS -- until a go signal arrives while the gate is not RUNNING,
    which clears it. *)
Theorem X14_go_signal_while_running_is_kept
    (w : Waiting.t) (actions : list Waiting.Action) (bb : Blackboard)
    (remaining : list string)
    (Hactive : Waiting.status w = Status.RUNNING)
    (Hquiet : existsb is_go_signal actions = false)
    (Hbb : remaining_locations bb = Some remaining) :
  let pressed := (Waiting._go_button_callback w).2 in
  Waiting.go_requested (Waiting.run pressed actions) = true
  ∧ (∃ w', (Waiting.update (Waiting.run pressed actions) bb).2
           = Ok (w', Status.SUCCESS))
  ∧ (Waiting.status (Waiting.run pressed actions) ≠ Status.RUNNING →
     Waiting.go_requested
       (Waiting._go_button_callback (Waiting.run pressed actions)).2
     = false).
Proof.
  intros pressed.
  assert (Hkept : ∀ acts v,
            existsb is_go_signal acts = false →
            Waiting.go_requested (Waiting.run v acts)
            = Waiting.go_requested v).
  { induction acts as [|a acts IH]; intros v Hq; [done|].
    cbn in Hq. apply orb_false_iff in Hq as [Ha Hq].
    change (Waiting.run v (a :: acts))
      with (Waiting.run (Waiting.act v a) acts).
    rewrite (IH _ Hq), act_latch. by destruct a. }
  assert (Hlatch : Waiting.go_requested (Waiting.run pressed actions) = true).
  { rewrite (Hkept _ _ Hquiet). unfold pressed.
    rewrite callback_latch. by apply bool_decide_eq_true. }
  split; [exact Hlatch|]. split.
  - eexists. rewrite (update_status _ _ _ Hbb), Hlatch.
    by rewrite orb_true_r.
  - intros Hnot. rewrite callback_latch. by apply bool_decide_eq_false.
Qed.

(** An instance of X14: the gate at the pharmacy is pressed while RUNNING,
    ticked, and marked SUCCESS by the engine. *)
Lemma X14_witness :
  let w := Waiting.with_status Status.RUNNING
             (Waiting.__init__ 102 "at pharmacy" "pharmacy" false) in
  let bb := GopherDeliveries.blackboard Hospital.waiting_at_pharmacy in
  let actions := [Waiting.CallUpdate bb;
                  Waiting.EngineWritesStatus Status.SUCCESS] in
  Waiting.status w = Status.RUNNING
  ∧ existsb is_go_signal actions = false
  ∧ Waiting.go_requested
      (Waiting.run (Waiting._go_button_callback w).2 actions) = true.
Proof.
  intros w bb actions.
  assert (H1 : Waiting.status w = Status.RUNNING) by reflexivity.
  assert (H2 : existsb is_go_signal actions = false) by reflexivity.
  assert (H3 : remaining_locations bb = Some ["ward_a"]) by reflexivity.
  split; [exact H1|]. split; [exact H2|].
  exact (proj1 (X14_go_signal_while_running_is_kept w actions bb _ H1 H2 H3)).
Defined.

(** ** An idle system *)

(** X15.  With no root and no pending goal (as after [__init__] without
    preload, or after a finished delivery has been dropped), one
    [pre_tick_update] and [post_tock_update] call no collaborator and bring
    the system to rest: IDLE, "idling", [has_a_new_goal] false, not
    executing; from then on both methods leave it exactly as it is. *)
Theorem X15_idle_system_is_at_rest
    (g : GopherDeliveries.t) (world : string)
    (Hno_root : GopherDeliveries.root g = None)
    (Hno_goal : pending g = None) :
  ∃ g1 g2,
    GopherDeliveries.pre_tick_update g world = ([], Ok g1)
    ∧ GopherDeliveries.post_tock_update g1 = Ok g2
    ∧ GopherDeliveries.state g2 = State.IDLE
    ∧ GopherDeliveries.feedback_message g2 = "idling"
    ∧ GopherDeliveries.has_a_new_goal g2 = false
    ∧ GopherDeliveries.is_executing g2 = false
    ∧ GopherDeliveries.succeeded_on_last_tick g2 = false
    ∧ (∀ world', GopherDeliveries.pre_tick_update g2 world' = ([], Ok g2))
    ∧ GopherDeliveries.post_tock_update g2 = Ok g2.
Proof.
  eexists _, _. split.
  { rewrite (pre_tick_update_idle _ _ Hno_goal), Hno_root. reflexivity. }
  split; [reflexivity|]. repeat (split; [reflexivity|]). split.
  - intros world'. rewrite pre_tick_update_idle; [reflexivity|exact Hno_goal].
  - reflexivity.
Qed.

(** An instance of X15: the fresh hospital. *)
Lemma X15_witness :
  GopherDeliveries.root Hospital.fresh = None
  ∧ pending Hospital.fresh = None
  ∧ ∃ g1 g2,
      GopherDeliveries.pre_tick_update Hospital.fresh "hospital"
      = ([], Ok g1)
      ∧ GopherDeliveries.post_tock_update g1 = Ok g2
      ∧ GopherDeliveries.state g2 = State.IDLE.
Proof.
  split; [reflexivity|]. split; [reflexivity|].
  destruct (X15_idle_system_is_at_rest Hospital.fresh "hospital"
              eq_refl eq_refl) as (g1 & g2 & H1 & H2 & H3 & _).
  exists g1, g2. split; [exact H1|]. split; [exact H2|exact H3].
Defined.

(** ** Properties of [desirable_destinations] *)

Section destinations.
Import Destinations.
Context {Number : Type}.
Implicit Types (d : gmap string (Entry Number)) (value : Entry Number)
  (items : list (string * Entry Number))
  (ls : list (SemanticLocation Number)).

Lemma key_le_cases a b : key_le a b ↔ a = b ∨ key_lt a b.
Proof.
  unfold key_le, key_lt.
  destruct (OrdersEx.String_as_OT.compare_spec a b) as [->|Hlt|Hgt].
  - split; [by left|done].
  - split; [by right|done].
  - split; [done|]. intros [->|?]; [|done].
    by apply (irreflexivity OrdersEx.String_as_OT.lt) in Hgt.
Qed.

#[local] Instance key_le_trans : Transitive key_le.
Proof.
  intros a b c [->|Hab]%key_le_cases [->|Hbc]%key_le_cases;
    apply key_le_cases; auto.
  right. by etrans.
Qed.

#[local] Instance key_le_total : Total key_le.
Proof.
  intros a b. unfold key_le.
  destruct (OrdersEx.String_as_OT.compare_spec a b) as [->|Hlt|Hgt];
    [by left|by left|right].
  unfold OrdersEx.String_as_OT.lt in Hgt. by rewrite Hgt.
Qed.

#[local] Instance item_le_trans :
  Transitive (λ i j : string * Entry Number, key_le i.1 j.1).
Proof. intros i j k. apply key_le_trans. Qed.

#[local] Instance item_le_total :
  Total (λ i j : string * Entry Number, key_le i.1 j.1).
Proof. intros i j. apply key_le_total. Qed.

Lemma strictly_sorted (l : list string) :
  StronglySorted key_le l → NoDup l → StronglySorted key_lt l.
Proof.
  induction 1 as [|a l _ IH Hall]; [constructor|].
  intros [Hnotin Hnodup]%NoDup_cons. constructor; [by apply IH|].
  rewrite Forall_forall in Hall |- *. intros b Hb.
  destruct (proj1 (key_le_cases a b) (Hall b Hb)) as [->|?]; done.
Qed.

(** The sorted items are the items of the dictionary, by ascending key
    without repetition. *)
Lemma sorted_items_keys d :
  sorted_items d ≡ₚ map_to_list d
  ∧ StronglySorted key_lt (sorted_items d).*1.
Proof.
  assert (Hperm : sorted_items d ≡ₚ map_to_list d).
  { unfold sorted_items. by rewrite merge_sort_Permutation. }
  split; [exact Hperm|]. apply strictly_sorted.
  - apply (StronglySorted_fmap fst (λ i j, key_le i.1 j.1)); [done|].
    apply StronglySorted_merge_sort; apply _.
  - rewrite Hperm. apply NoDup_fst_map_to_list.
Qed.

(** What one run of the loop body yields. *)
Lemma make_location_Found key value (l : SemanticLocation Number) :
  make_location key value = Found l ↔
  ∃ p,
    entry_name value = Some (name (location l))
    ∧ entry_description value = Some (description (location l))
    ∧ entry_pose value = Some p
    ∧ pose_x p = Some (x (pose l))
    ∧ pose_y p = Some (y (pose l))
    ∧ pose_theta p = Some (theta (pose l))
    ∧ entry_keyframe_id value = Some (keyframe_id l)
    ∧ unique_name (location l) = key.
Proof.
  unfold make_location.
  destruct value as [[n|] [ds|] [[[px|] [py|] [pt|]]|] [k|]]; cbn;
    try (split; [done|]; intros (p & ? & ? & ? & ? & ? & ? & ? & ?);
         simplify_eq/=; done).
  split.
  - intros [= <-]. by eexists.
  - intros (p & ? & ? & ? & ? & ? & ? & ? & ?). simplify_eq/=.
    by destruct l as [[] [] ?].
Qed.



Lemma make_locations_Found items ls :
  make_locations items = Found ls ↔
  Forall2 (λ i l, make_location i.1 i.2 = Found l) items ls.
Proof.
  revert ls. induction items as [|[key value] items IH]; intros ls; cbn.
  - split; [intros [= <-]; constructor|by intros ->%Forall2_nil_inv_l].
  - destruct (make_location key value) as [l|k] eqn:Hl; cbn.
    + destruct (make_locations items) as [ls'|k] eqn:Hls; cbn.
      * split.
        -- intros [= <-]. constructor; [done|]. by apply IH.
        -- intros (l' & ls'' & Hl' & Hrest & ->)%Forall2_cons_inv_l.
           cbn in Hl'. apply IH in Hrest. rewrite Hl in Hl'.
           by simplify_eq.
      * split; [done|].
        intros (l' & ls'' & Hl' & Hrest & ->)%Forall2_cons_inv_l.
        by apply IH in Hrest.
    + split; [done|].
      intros (l' & ls'' & Hl' & _ & ->)%Forall2_cons_inv_l. cbn in Hl'.
      by rewrite Hl in Hl'.
Qed.
End destinations.

Section destinations_more.
Import Destinations.
Context {Number : Type}.
Implicit Types (d : gmap string (Entry Number)) (value : Entry Number)
  (items : list (string * Entry Number))
  (ls : list (SemanticLocation Number)).

Lemma made_names items ls :
  Forall2 (λ i l, make_location i.1 i.2 = Found l) items ls →
  unique_names ls = items.*1.
Proof.
  induction 1 as [|[key value] l items ls Hl _ IH]; [done|].
  cbn. f_equal; [|exact IH].
  by apply make_location_Found in Hl as (p & _ & _ & _ & _ & _ & _ & _ & ?).
Qed.

(** X16.  When [desirable_destinations] returns, it returns one location for
    each key of [semantic_locations], in ascending order of the keys: the
    unique names are strictly increasing (so without repetition), they are
    exactly the keys of the dictionary, and each location carries the name,
    description, pose and keyframe id found under its key. *)
Theorem X16_destinations_sorted_by_unique_name
    d ls (Hreturns : desirable_destinations (Some d) = Found ls) :
  StronglySorted key_lt (unique_names ls)
  ∧ (∀ key, key ∈ unique_names ls ↔ is_Some (d !! key))
  ∧ length ls = size d
  ∧ ∀ l, l ∈ ls →
      ∃ value p,
        d !! unique_name (location l) = Some value
        ∧ entry_name value = Some (name (location l))
        ∧ entry_description value = Some (description (location l))
        ∧ entry_pose value = Some p
        ∧ pose_x p = Some (x (pose l))
        ∧ pose_y p = Some (y (pose l))
        ∧ pose_theta p = Some (theta (pose l))
        ∧ entry_keyframe_id value = Some (keyframe_id l).
Proof.
  cbn in Hreturns. apply make_locations_Found in Hreturns.
  destruct (sorted_items_keys d) as [Hperm Hsorted].
  pose proof (made_names _ _ Hreturns) as Hnames.
  split; [by rewrite Hnames|]. split; [|split].
  - intros key. rewrite Hnames, Hperm. split.
    + intros ([k v] & -> & Hin%elem_of_map_to_list)%list_elem_of_fmap.
      by eexists.
    + intros [v Hv]. apply list_elem_of_fmap. exists (key, v).
      split; [done|]. by apply elem_of_map_to_list.
  - rewrite <- (Forall2_length _ _ _ Hreturns), Hperm.
    apply length_map_to_list.
  - intros l Hl.
    apply list_elem_of_lookup in Hl as [n Hn].
    destruct (Forall2_lookup_r _ _ _ _ _ Hreturns Hn)
      as ([key value] & Hin & Hmade).
    apply list_elem_of_lookup_2 in Hin.
    rewrite Hperm in Hin. apply elem_of_map_to_list in Hin.
    apply make_location_Found in Hmade
      as (p & ? & ? & ? & ? & ? & ? & ? & Hkey).
    cbn in Hkey. subst key. by exists value, p.
Qed.




End destinations_more.

(** An instance of X16: the three locations of the sample document come out
    by name. *)
Lemma X16_witness :
  ∃ ls,
    Destinations.desirable_destinations (Some Destinations.sample)
    = Destinations.Found ls
    ∧ Destinations.unique_names ls = ["pharmacy"; "ward_a"; "ward_b"]
    ∧ StronglySorted Destinations.key_lt (Destinations.unique_names ls).
Proof.
  destruct (Destinations.desirable_destinations (Some Destinations.sample))
    as [ls|k] eqn:Hrun;
    [|vm_compute in Hrun; discriminate Hrun].
  exists ls. split; [reflexivity|]. split.
  - vm_compute in Hrun. injection Hrun as <-. reflexivity.
  - exact (proj1 (X16_destinations_sorted_by_unique_name
                    Destinations.sample ls Hrun)).
Defined.

